(** * BizBuz: digital business cards

    A shallow embedding of [server.js]: the profile resolver
    ([fetchProfile], [getDemoProfile]), the vCard renderer ([generateVCard]
    and the download file name), the HTML card page
    ([generateBusinessCardPage], [getInitials], [escapeHtml]) and the two
    card URLs that are turned into QR codes.

    JavaScript strings are sequences of UTF-16 code units; they are
    modelled as lists of numbers, and every string operation the program
    uses ([split], [join], [replace] with a global pattern, [substring])
    is written out on those lists. Awaited calls that can reject
    ([fetch], [response.json], the QR library) complete with a value or a
    thrown exception; the network, the QR library and the host's
    [toUpperCase] are parameters of the functions that call them.
    The vCard renderer is given twice: as a function of the profile's
    fields, and on a store that holds the profile object and the array
    [lines], where rendering the same profile again can be stated.
    Logging is left out. *)

From Stdlib Require Import List Arith NArith Bool Ascii String Floats Lia.
Import ListNotations.

Set Warnings "-register-all".

(** ** The JavaScript fragment the service relies on *)

Module JS.

Definition code_unit := N.
Bind Scope N_scope with code_unit.
Definition jsstring := list code_unit.

(** An ASCII literal of the source text, as a JavaScript string. *)
Definition u16 (s : string) : jsstring :=
  map N_of_ascii (list_ascii_of_string s).

Definition dquote : jsstring := [34%N].
Definition CRLF : jsstring := [13%N; 10%N].
Definition space : code_unit := 32%N.

(** [a === b] on two strings. *)
Fixpoint streq (a b : jsstring) : bool :=
  match a, b with
  | [], [] => true
  | x :: a', y :: b' => N.eqb x y && streq a' b'
  | _, _ => false
  end.

(** Truthiness of a string: only the empty string is falsy. *)
Definition nonempty (s : jsstring) : bool :=
  match s with [] => false | _ :: _ => true end.

(** [s.split(sep)] for a separator of one code unit. The empty string
    splits into one empty token. *)
Fixpoint split (sep : code_unit) (s : jsstring) : list jsstring :=
  match s with
  | [] => [[]]
  | c :: rest =>
      if N.eqb c sep then [] :: split sep rest
      else match split sep rest with
           | w :: ws => (c :: w) :: ws
           | [] => [[c]]
           end
  end.

(** [parts.join(sep)] on an array of strings. *)
Fixpoint join (sep : jsstring) (parts : list jsstring) : jsstring :=
  match parts with
  | [] => []
  | [w] => w
  | w :: ws => w ++ sep ++ join sep ws
  end.

(** [parts.join(sep)] on an array that may hold [undefined]: such an
    element contributes the empty string. *)
Definition joinU (sep : jsstring) (parts : list (option jsstring)) : jsstring :=
  join sep (map (fun e => match e with Some w => w | None => [] end) parts).

(** [parts.slice(1)]. *)
Definition slice1 {A} (parts : list A) : list A := tl parts.

(** [word[0]]: a string of one code unit, [undefined] on the empty string. *)
Definition index0 (word : jsstring) : option jsstring :=
  match word with [] => None | c :: _ => Some [c] end.

(** [s.substring(0, n)]. *)
Definition substring0 (n : nat) (s : jsstring) : jsstring := firstn n s.

(** [s.replace(/c/g, by)] for a pattern that is one literal code unit. *)
Definition replaceAll (c : code_unit) (by_ : jsstring) (s : jsstring) : jsstring :=
  flat_map (fun x => if N.eqb x c then by_ else [x]) s.

(** [s.replace(/[^...]/g, by)] for a negated character class given by
    its membership test: with no [u] flag the pattern matches code unit
    by code unit. *)
Definition replaceOutside (inClass : code_unit -> bool) (by_ : jsstring)
           (s : jsstring) : jsstring :=
  flat_map (fun x => if inClass x then [x] else by_) s.

(** [s] starts with [p]; the rest of [s] when it does. *)
Fixpoint stripPrefix (p s : jsstring) : option jsstring :=
  match p, s with
  | [], _ => Some s
  | x :: p', y :: s' => if N.eqb x y then stripPrefix p' s' else None
  | _ :: _, [] => None
  end.

(** Values that [JSON.parse] builds, and [undefined]. An object lists
    its properties; a property is read at its first binding. *)
Inductive value : Type :=
| VUndefined
| VNull
| VBool (b : bool)
| VNum (f : float)
| VStr (s : jsstring)
| VArr (elems : list value)
| VObj (props : list (jsstring * value)).

(** ToBoolean. *)
Definition truthy (v : value) : bool :=
  match v with
  | VUndefined | VNull => false
  | VBool b => b
  | VNum f => negb (PrimFloat.is_zero f || PrimFloat.is_nan f)
  | VStr s => nonempty s
  | VArr _ | VObj _ => true
  end.

Inductive exn : Type :=
| TypeError
| SyntaxError
| NetworkError
| LibraryError.

(** Completion of an awaited call: a value or a thrown exception. *)
Inductive result (A : Type) : Type :=
| Ok (a : A)
| Throw (e : exn).
Arguments Ok {A} a.
Arguments Throw {A} e.

Definition bind {A B} (r : result A) (k : A -> result B) : result B :=
  match r with Ok a => k a | Throw e => Throw e end.

Fixpoint lookup (k : jsstring) (props : list (jsstring * value)) : option value :=
  match props with
  | [] => None
  | (k', v) :: rest => if streq k k' then Some v else lookup k rest
  end.

(** [v.k] for the property names this program reads ([profile], [name],
    [title], ...): reading from [null] or [undefined] throws; an object
    yields the property or [undefined]; arrays, strings, numbers and
    booleans have no property of those names. *)
Definition getProp (v : value) (k : jsstring) : result value :=
  match v with
  | VUndefined | VNull => Throw TypeError
  | VObj props => Ok (match lookup k props with Some x => x | None => VUndefined end)
  | _ => Ok VUndefined
  end.

End JS.

Import JS.

Declare Scope js_scope.
Notation "x <- r ;; k" := (bind r (fun x => k))
  (at level 61, r at next level, right associativity) : js_scope.
Open Scope js_scope.

(** ** Profile resolver *)

Module Resolver.

(** What [fetch] resolves to: the [ok] flag of the response and the
    completion of [response.json()]. *)
Record Response : Type := { ok : bool; json : result value }.

(** Demo profile for testing. *)
Definition getDemoProfile : value :=
  VObj [ (u16 "name", VStr (u16 "Ada Lovelace"));
         (u16 "title", VStr (u16 "Software Enchantress"));
         (u16 "company", VStr (u16 "Planet Nine"));
         (u16 "email", VStr (u16 "ada@planetnine.app"));
         (u16 "phone", VStr (u16 "+1 (555) 123-4567"));
         (u16 "website", VStr (u16 "https://planetnine.app"));
         (u16 "location", VStr (u16 "The Cosmos"));
         (u16 "bio", VStr (u16 "Building the future of privacy-first technology."));
         (u16 "social", VObj [ (u16 "github", VStr (u16 "planet-nine-app"));
                               (u16 "twitter", VStr (u16 "planetnine")) ]) ].

Section Fetch.

(** Configuration and the network: [fetch url] is the completion of the
    one outbound request. *)
Variable PROF_BASE_URL : jsstring.
Variable fetch : jsstring -> result Response.

Definition profileUrl (identifier : jsstring) : jsstring :=
  PROF_BASE_URL ++ u16 "/profile/" ++ identifier.

(** The body of the [try] block: [Ok (Some v)] is [return v] from
    inside the [if (response.ok)], [Ok None] is falling through it. *)
Definition fetchProfile_try (identifier : jsstring) : result (option value) :=
  response <- fetch (profileUrl identifier) ;;
  if ok response then
    data <- json response ;;
    profile <- getProp data (u16 "profile") ;;
    Ok (Some (if truthy profile then profile else data))
  else Ok None.

(** Fetch profile from Prof service. The two fallbacks are the one
    after the [if] and the one in the [catch]. *)
Definition fetchProfile (identifier : jsstring) : value :=
  match fetchProfile_try identifier with
  | Ok (Some v) => v
  | Ok None =>
      if streq identifier (u16 "demo") then getDemoProfile else VNull
  | Throw _ =>
      if streq identifier (u16 "demo") then getDemoProfile else VNull
  end.

End Fetch.

End Resolver.

(** ** Profiles as the renderers read them *)

Module Profiles.

(** The handles under [profile.social]. *)
Record Social : Type := {
  github : option jsstring;
  twitter : option jsstring;
  linkedin : option jsstring
}.

(** A profile is a bag of optional text fields: [None] is a property
    that is absent (or [null]), [Some s] one that holds the string [s]. *)
Record Profile : Type := {
  name : option jsstring;
  title : option jsstring;
  company : option jsstring;
  email : option jsstring;
  phone : option jsstring;
  website : option jsstring;
  location : option jsstring;
  bio : option jsstring;
  social : option Social
}.

(** The test [if (profile.f)] together with the string it lets through:
    an absent field and the empty string are both falsy. *)
Definition present (field : option jsstring) : option jsstring :=
  match field with
  | Some s => if nonempty s then Some s else None
  | None => None
  end.

(** [profile.f || fallback]. *)
Definition orElse (field : option jsstring) (fallback : jsstring) : jsstring :=
  match present field with Some s => s | None => fallback end.

(** A text property of a resolved value: [Some None] when it is absent
    or [null], [Some (Some s)] when it is the string [s]; a property of
    another type is outside the data model, and gives [None]. *)
Definition readText (v : value) (k : jsstring) : option (option jsstring) :=
  match getProp v k with
  | Ok VUndefined | Ok VNull => Some None
  | Ok (VStr s) => Some (Some s)
  | _ => None
  end.

Definition readSocial (v : value) : option (option Social) :=
  match getProp v (u16 "social") with
  | Ok VUndefined | Ok VNull => Some None
  | Ok (VObj props) =>
      match readText (VObj props) (u16 "github"),
            readText (VObj props) (u16 "twitter"),
            readText (VObj props) (u16 "linkedin") with
      | Some g, Some t, Some l =>
          Some (Some {| github := g; twitter := t; linkedin := l |})
      | _, _, _ => None
      end
  | _ => None
  end.

(** The profile a resolved value is to the renderers, when every property
    they read is text. *)
Definition readProfile (v : value) : option Profile :=
  match readText v (u16 "name"), readText v (u16 "title"),
        readText v (u16 "company"), readText v (u16 "email"),
        readText v (u16 "phone"), readText v (u16 "website"),
        readText v (u16 "location"), readText v (u16 "bio"), readSocial v with
  | Some n, Some t, Some c, Some e, Some ph, Some w, Some l, Some b, Some s =>
      Some {| name := n; title := t; company := c; email := e; phone := ph;
              website := w; location := l; bio := b; social := s |}
  | _, _, _, _, _, _, _, _, _ => None
  end.

End Profiles.

Import Profiles.

(** ** vCard renderer *)

Module VCard.

(** [lines.push(line)]. *)
Definition push (lines : list jsstring) (line : jsstring) : list jsstring :=
  lines ++ [line].

(** [if (field) { lines.push(line) }], the line being built from the
    field's text. *)
Definition pushIf (lines : list jsstring) (field : option jsstring)
           (line : jsstring -> jsstring) : list jsstring :=
  match present field with
  | Some text => push lines (line text)
  | None => lines
  end.

(** The array [lines] as it stands before [lines.join]. *)
Definition vcardLines (profile : Profile) : list jsstring :=
  let lines := [u16 "BEGIN:VCARD"; u16 "VERSION:3.0"] in
  let lines :=
    match present (name profile) with
    | Some name =>
        let lines := push lines (u16 "FN:" ++ name) in
        (* Try to split into first/last name *)
        let parts := split space name in
        if Nat.leb 2 (List.length parts)
        then push lines (u16 "N:" ++ join [space] (slice1 parts) ++ u16 ";"
                           ++ hd [] parts ++ u16 ";;;")
        else push lines (u16 "N:;" ++ name ++ u16 ";;;")
    | None => lines
    end in
  let lines := pushIf lines (title profile) (fun title => u16 "TITLE:" ++ title) in
  let lines := pushIf lines (company profile) (fun company => u16 "ORG:" ++ company) in
  let lines := pushIf lines (email profile)
                 (fun email => u16 "EMAIL;TYPE=INTERNET:" ++ email) in
  let lines := pushIf lines (phone profile) (fun phone => u16 "TEL;TYPE=CELL:" ++ phone) in
  let lines := pushIf lines (website profile) (fun website => u16 "URL:" ++ website) in
  let lines := pushIf lines (location profile)
                 (fun location => u16 "ADR;TYPE=WORK:;;" ++ location ++ u16 ";;;;") in
  let lines := pushIf lines (bio profile) (fun bio => u16 "NOTE:" ++ bio) in
  (* Add social links as URLs *)
  let lines :=
    match social profile with
    | Some social =>
        let lines := pushIf lines (github social)
            (fun github => u16 "URL;TYPE=GitHub:https://github.com/" ++ github) in
        let lines := pushIf lines (twitter social)
            (fun twitter => u16 "URL;TYPE=Twitter:https://twitter.com/" ++ twitter) in
        pushIf lines (linkedin social)
            (fun linkedin => u16 "URL;TYPE=LinkedIn:https://linkedin.com/in/" ++ linkedin)
    | None => lines
    end in
  push lines (u16 "END:VCARD").

(** Generate vCard 3.0 format. *)
Definition generateVCard (profile : Profile) : jsstring :=
  join CRLF (vcardLines profile).

(** The character class [a-zA-Z0-9.-]. *)
Definition filenameChar (c : code_unit) : bool :=
  ((97 <=? c) && (c <=? 122) || (65 <=? c) && (c <=? 90)
   || (48 <=? c) && (c <=? 57) || (c =? 46) || (c =? 45))%N.

(** The download file name of [GET /vcard/:identifier]. *)
Definition vcardFilename (profile : Profile) : jsstring :=
  replaceOutside filenameChar (u16 "_")
    (orElse (name profile) (u16 "contact") ++ u16 ".vcf").

End VCard.

(** ** HTML card page *)

Module Card.

(** Escape HTML special characters. *)
Definition escapeHtml (str : jsstring) : jsstring :=
  if negb (nonempty str) then []
  else
    let s := replaceAll 38 (u16 "&amp;") str in
    let s := replaceAll 60 (u16 "&lt;") s in
    let s := replaceAll 62 (u16 "&gt;") s in
    let s := replaceAll 34 (u16 "&quot;") s in
    replaceAll 39 (u16 "&#039;") s.

(** [website.replace(/^https?:\/\//, '')]: a leading [http://] or
    [https://] is dropped. *)
Definition stripScheme (website : jsstring) : jsstring :=
  match stripPrefix (u16 "https://") website with
  | Some rest => rest
  | None =>
      match stripPrefix (u16 "http://") website with
      | Some rest => rest
      | None => website
      end
  end.

(** Options handed to the QR library. *)
Record QROptions : Type := {
  qr_type : option jsstring;
  qr_width : N;
  qr_margin : N;
  qr_dark : jsstring;
  qr_light : jsstring
}.

(** The URL the card page turns into a QR code. *)
Definition pageCardUrl (identifier : jsstring) : jsstring :=
  u16 "https://bizbuz.planetnine.app/card/" ++ identifier.

Definition pageQROptions : QROptions :=
  {| qr_type := None; qr_width := 150; qr_margin := 1;
     qr_dark := u16 "#10b981"; qr_light := u16 "#1a0033" |}.

(** *** Static text of the page template, between its substitutions *)

Definition seg_doctype : jsstring :=
  u16 "<!DOCTYPE html>
<html lang=" ++ dquote ++ u16 "en" ++ dquote ++ u16 ">
<head>
    <meta charset=" ++ dquote ++ u16 "UTF-8" ++ dquote ++ u16 ">
    <meta name=" ++ dquote ++ u16 "viewport" ++ dquote ++ u16 " content=" ++ dquote ++ u16 "width=device-width, initial-scale=1.0" ++ dquote ++ u16 ">
    <title>".

Definition seg_after_title : jsstring :=
  u16 " - Digital Business Card</title>
    <meta name=" ++ dquote ++ u16 "description" ++ dquote ++ u16 " content=" ++ dquote.

Definition seg_meta_at : jsstring :=
  u16 " at ".

Definition seg_style_to_avatar : jsstring :=
  dquote ++ u16 ">
    <style>
        * {
            margin: 0;
            padding: 0;
            box-sizing: border-box;
        }

        body {
            font-family: -apple-system, BlinkMacSystemFont, 'Segoe UI', Roboto, sans-serif;
            background: linear-gradient(135deg, #0a001a 0%, #1a0033 50%, #0a001a 100%);
            min-height: 100vh;
            display: flex;
            flex-direction: column;
            align-items: center;
            justify-content: center;
            padding: 20px;
            color: white;
        }

        .card {
            background: rgba(255, 255, 255, 0.05);
            border: 1px solid rgba(16, 185, 129, 0.3);
            border-radius: 24px;
            padding: 40px;
            max-width: 400px;
            width: 100%;
            text-align: center;
            backdrop-filter: blur(10px);
            box-shadow:
                0 0 40px rgba(16, 185, 129, 0.1),
                0 0 80px rgba(139, 92, 246, 0.05);
            position: relative;
            overflow: hidden;
        }

        .card::before {
            content: '';
            position: absolute;
            top: -50%;
            left: -50%;
            width: 200%;
            height: 200%;
            background: radial-gradient(circle, rgba(16, 185, 129, 0.1) 0%, transparent 50%);
            animation: pulse 4s ease-in-out infinite;
        }

        @keyframes pulse {
            0%, 100% { opacity: 0.5; transform: scale(1); }
            50% { opacity: 1; transform: scale(1.1); }
        }

        .card-content {
            position: relative;
            z-index: 1;
        }

        .avatar {
            width: 100px;
            height: 100px;
            border-radius: 50%;
            background: linear-gradient(135deg, #10b981 0%, #059669 100%);
            margin: 0 auto 20px;
            display: flex;
            align-items: center;
            justify-content: center;
            font-size: 40px;
            font-weight: bold;
            color: white;
            box-shadow: 0 0 30px rgba(16, 185, 129, 0.4);
        }

        .name {
            font-size: 28px;
            font-weight: 700;
            margin-bottom: 8px;
            background: linear-gradient(135deg, #10b981 0%, #a78bfa 100%);
            -webkit-background-clip: text;
            -webkit-text-fill-color: transparent;
            background-clip: text;
        }

        .title {
            font-size: 16px;
            color: rgba(167, 139, 250, 0.9);
            margin-bottom: 4px;
        }

        .company {
            font-size: 14px;
            color: rgba(255, 255, 255, 0.6);
            margin-bottom: 20px;
        }

        .bio {
            font-size: 14px;
            color: rgba(255, 255, 255, 0.7);
            line-height: 1.6;
            margin-bottom: 24px;
            font-style: italic;
        }

        .contact-info {
            text-align: left;
            margin-bottom: 24px;
        }

        .contact-item {
            display: flex;
            align-items: center;
            gap: 12px;
            padding: 10px 0;
            border-bottom: 1px solid rgba(255, 255, 255, 0.1);
            color: rgba(255, 255, 255, 0.8);
            text-decoration: none;
            transition: color 0.2s;
        }

        .contact-item:hover {
            color: #10b981;
        }

        .contact-item:last-child {
            border-bottom: none;
        }

        .contact-icon {
            width: 20px;
            text-align: center;
            color: #10b981;
        }

        .qr-section {
            margin-top: 24px;
            padding-top: 24px;
            border-top: 1px solid rgba(255, 255, 255, 0.1);
        }

        .qr-code {
            background: #1a0033;
            padding: 10px;
            border-radius: 12px;
            display: inline-block;
            margin-bottom: 12px;
        }

        .qr-code img {
            display: block;
        }

        .qr-label {
            font-size: 12px;
            color: rgba(255, 255, 255, 0.5);
        }

        .actions {
            display: flex;
            gap: 12px;
            margin-top: 24px;
        }

        .btn {
            flex: 1;
            padding: 14px 20px;
            border: none;
            border-radius: 12px;
            font-size: 14px;
            font-weight: 600;
            cursor: pointer;
            transition: all 0.2s;
            text-decoration: none;
            display: flex;
            align-items: center;
            justify-content: center;
            gap: 8px;
        }

        .btn-primary {
            background: linear-gradient(135deg, #10b981 0%, #059669 100%);
            color: white;
            box-shadow: 0 4px 20px rgba(16, 185, 129, 0.3);
        }

        .btn-primary:hover {
            transform: translateY(-2px);
            box-shadow: 0 6px 30px rgba(16, 185, 129, 0.4);
        }

        .btn-secondary {
            background: rgba(255, 255, 255, 0.1);
            color: white;
            border: 1px solid rgba(255, 255, 255, 0.2);
        }

        .btn-secondary:hover {
            background: rgba(255, 255, 255, 0.15);
        }

        .footer {
            margin-top: 30px;
            text-align: center;
            color: rgba(255, 255, 255, 0.4);
            font-size: 12px;
        }

        .footer a {
            color: #10b981;
            text-decoration: none;
        }

        /* Floating particles */
        .particle {
            position: fixed;
            width: 4px;
            height: 4px;
            background: #10b981;
            border-radius: 50%;
            opacity: 0.3;
            animation: float 10s infinite;
        }

        @keyframes float {
            0%, 100% { transform: translateY(100vh) rotate(0deg); opacity: 0; }
            10% { opacity: 0.3; }
            90% { opacity: 0.3; }
            100% { transform: translateY(-100vh) rotate(720deg); opacity: 0; }
        }
    </style>
</head>
<body>
    <!-- Floating particles -->
    <div class=" ++ dquote ++ u16 "particle" ++ dquote ++ u16 " style=" ++ dquote ++ u16 "left: 10%; animation-delay: 0s;" ++ dquote ++ u16 "></div>
    <div class=" ++ dquote ++ u16 "particle" ++ dquote ++ u16 " style=" ++ dquote ++ u16 "left: 30%; animation-delay: 2s;" ++ dquote ++ u16 "></div>
    <div class=" ++ dquote ++ u16 "particle" ++ dquote ++ u16 " style=" ++ dquote ++ u16 "left: 50%; animation-delay: 4s;" ++ dquote ++ u16 "></div>
    <div class=" ++ dquote ++ u16 "particle" ++ dquote ++ u16 " style=" ++ dquote ++ u16 "left: 70%; animation-delay: 6s;" ++ dquote ++ u16 "></div>
    <div class=" ++ dquote ++ u16 "particle" ++ dquote ++ u16 " style=" ++ dquote ++ u16 "left: 90%; animation-delay: 8s;" ++ dquote ++ u16 "></div>

    <div class=" ++ dquote ++ u16 "card" ++ dquote ++ u16 ">
        <div class=" ++ dquote ++ u16 "card-content" ++ dquote ++ u16 ">
            <div class=" ++ dquote ++ u16 "avatar" ++ dquote ++ u16 ">".

Definition seg_avatar_to_name : jsstring :=
  u16 "</div>

            <h1 class=" ++ dquote ++ u16 "name" ++ dquote ++ u16 ">".

Definition seg_name_to_title : jsstring :=
  u16 "</h1>
            ".

Definition seg_title_to_company : jsstring :=
  u16 "
            ".

Definition seg_company_to_bio : jsstring :=
  u16 "
            ".

Definition seg_bio_to_email : jsstring :=
  u16 "

            <div class=" ++ dquote ++ u16 "contact-info" ++ dquote ++ u16 ">
                ".

Definition seg_email_to_phone : jsstring :=
  u16 "

                ".

Definition seg_phone_to_website : jsstring :=
  u16 "

                ".

Definition seg_website_to_location : jsstring :=
  u16 "

                ".

Definition seg_location_to_qr : jsstring :=
  u16 "
            </div>

            <div class=" ++ dquote ++ u16 "qr-section" ++ dquote ++ u16 ">
                <div class=" ++ dquote ++ u16 "qr-code" ++ dquote ++ u16 ">
                    <img src=" ++ dquote.

Definition seg_qr_to_vcard_link : jsstring :=
  dquote ++ u16 " alt=" ++ dquote ++ u16 "QR Code" ++ dquote ++ u16 " width=" ++ dquote ++ u16 "150" ++ dquote ++ u16 " height=" ++ dquote ++ u16 "150" ++ dquote ++ u16 ">
                </div>
                <p class=" ++ dquote ++ u16 "qr-label" ++ dquote ++ u16 ">Scan to save contact</p>
            </div>

            <div class=" ++ dquote ++ u16 "actions" ++ dquote ++ u16 ">
                <a href=" ++ dquote ++ u16 "/vcard/".

Definition seg_vcard_link_to_share : jsstring :=
  dquote ++ u16 " class=" ++ dquote ++ u16 "btn btn-primary" ++ dquote ++ u16 " download>
                    Save Contact
                </a>
                <button class=" ++ dquote ++ u16 "btn btn-secondary" ++ dquote ++ u16 " onclick=" ++ dquote ++ u16 "shareCard()" ++ dquote ++ u16 ">
                    Share
                </button>
            </div>
        </div>
    </div>

    <div class=" ++ dquote ++ u16 "footer" ++ dquote ++ u16 ">
        <p>Powered by <a href=" ++ dquote ++ u16 "https://planetnine.app" ++ dquote ++ u16 ">Planet Nine</a></p>
    </div>

    <script>
        async function shareCard() {
            const url = window.location.href;
            const title = '".

Definition seg_tail : jsstring :=
  u16 " - Business Card';

            if (navigator.share) {
                try {
                    await navigator.share({ title, url });
                } catch (err) {
                    copyToClipboard(url);
                }
            } else {
                copyToClipboard(url);
            }
        }

        function copyToClipboard(text) {
            navigator.clipboard.writeText(text).then(() => {
                alert('Link copied to clipboard!');
            }).catch(() => {
                prompt('Copy this link:', text);
            });
        }
    </script>
</body>
</html>".

Section Page.

(** The host's [String.prototype.toUpperCase] and the QR library's
    [QRCode.toDataURL]. *)
Variable toUpperCase : jsstring -> jsstring.
Variable toDataURL : jsstring -> QROptions -> result jsstring.

(** Get initials from name. *)
Definition getInitials (name : option jsstring) : jsstring :=
  match present name with
  | None => u16 "?"
  | Some name =>
      toUpperCase
        (substring0 2 (joinU [] (map (fun word => index0 word) (split space name))))
  end.

(** The template literal that [generateBusinessCardPage] returns, as the
    list of its static parts and substitutions. *)
Definition pageParts (profile : Profile) (identifier qrDataUrl : jsstring)
  : list jsstring :=
  [ seg_doctype;
    orElse (name profile) (u16 "BizBuz");
    seg_after_title;
    orElse (title profile) [];
    seg_meta_at;
    orElse (company profile) (u16 "Planet Nine");
    seg_style_to_avatar;
    getInitials (name profile);
    seg_avatar_to_name;
    escapeHtml (orElse (name profile) (u16 "Anonymous"));
    seg_name_to_title;
    match present (title profile) with
    | Some title =>
        u16 "<p class=" ++ dquote ++ u16 "title" ++ dquote ++ u16 ">"
        ++ escapeHtml title ++ u16 "</p>"
    | None => []
    end;
    seg_title_to_company;
    match present (company profile) with
    | Some company =>
        u16 "<p class=" ++ dquote ++ u16 "company" ++ dquote ++ u16 ">"
        ++ escapeHtml company ++ u16 "</p>"
    | None => []
    end;
    seg_company_to_bio;
    match present (bio profile) with
    | Some bio =>
        (u16 "<p class=" ++ dquote ++ u16 "bio" ++ dquote ++ u16 ">" ++ dquote)
        ++ escapeHtml bio ++ (dquote ++ u16 "</p>")
    | None => []
    end;
    seg_bio_to_email;
    match present (email profile) with
    | Some email =>
        u16 "
                <a href=" ++ dquote ++ u16 "mailto:" ++ escapeHtml email
        ++ dquote ++ u16 " class=" ++ dquote ++ u16 "contact-item" ++ dquote ++ u16 ">
                    <span class=" ++ dquote ++ u16 "contact-icon" ++ dquote ++ u16 ">@</span>
                    <span>" ++ escapeHtml email ++ u16 "</span>
                </a>
                "
    | None => []
    end;
    seg_email_to_phone;
    match present (phone profile) with
    | Some phone =>
        u16 "
                <a href=" ++ dquote ++ u16 "tel:" ++ escapeHtml phone
        ++ dquote ++ u16 " class=" ++ dquote ++ u16 "contact-item" ++ dquote ++ u16 ">
                    <span class=" ++ dquote ++ u16 "contact-icon" ++ dquote ++ u16 ">#</span>
                    <span>" ++ escapeHtml phone ++ u16 "</span>
                </a>
                "
    | None => []
    end;
    seg_phone_to_website;
    match present (website profile) with
    | Some website =>
        u16 "
                <a href=" ++ dquote ++ escapeHtml website
        ++ dquote ++ u16 " target=" ++ dquote ++ u16 "_blank" ++ dquote ++ u16 " class=" ++ dquote ++ u16 "contact-item" ++ dquote ++ u16 ">
                    <span class=" ++ dquote ++ u16 "contact-icon" ++ dquote ++ u16 ">~</span>
                    <span>" ++ escapeHtml (stripScheme website) ++ u16 "</span>
                </a>
                "
    | None => []
    end;
    seg_website_to_location;
    match present (location profile) with
    | Some location =>
        u16 "
                <div class=" ++ dquote ++ u16 "contact-item" ++ dquote ++ u16 ">
                    <span class=" ++ dquote ++ u16 "contact-icon" ++ dquote ++ u16 ">*</span>
                    <span>" ++ escapeHtml location ++ u16 "</span>
                </div>
                "
    | None => []
    end;
    seg_location_to_qr;
    qrDataUrl;
    seg_qr_to_vcard_link;
    identifier;
    seg_vcard_link_to_share;
    escapeHtml (orElse (name profile) (u16 "Contact"));
    seg_tail ].

(** Generate business card HTML page. *)
Definition generateBusinessCardPage (profile : Profile) (identifier : jsstring)
  : result jsstring :=
  let cardUrl := pageCardUrl identifier in
  qrDataUrl <- toDataURL cardUrl pageQROptions ;;
  Ok (List.concat (pageParts profile identifier qrDataUrl)).

End Page.

(** The host's case conversion on text of Basic Latin and Latin-1
    Supplement (code units up to U+00FF), per code unit: [a]-[z] and the
    accented letters move to their capitals, the micro sign to U+039C,
    y-diaeresis to U+0178, and sharp s becomes [SS]. Code units above
    U+00FF have no entry here and are left as they are. *)
Definition upperLatin1 (c : code_unit) : jsstring :=
  (if (97 <=? c) && (c <=? 122) then [c - 32]
   else if c =? 181 then [924]
   else if c =? 223 then [83; 83]
   else if (224 <=? c) && (c <=? 254) && negb (c =? 247) then [c - 32]
   else if c =? 255 then [376]
   else [c])%N.

Definition toUpperCaseLatin1 (s : jsstring) : jsstring :=
  flat_map upperLatin1 s.

End Card.

(** ** QR image endpoint *)

Module QR.

(** What [GET /qr/:identifier] reads from the request: [req.protocol]
    and [req.get('host')], which is [undefined] without a Host header. *)
Record Request : Type := {
  protocol : jsstring;
  host : option jsstring
}.

(** A value substituted into a template literal. *)
Definition interpolate (v : option jsstring) : jsstring :=
  match v with Some s => s | None => u16 "undefined" end.

(** The URL the endpoint turns into a QR code. *)
Definition endpointCardUrl (req : Request) (identifier : jsstring) : jsstring :=
  protocol req ++ u16 "://" ++ interpolate (host req) ++ u16 "/card/" ++ identifier.

Definition endpointQROptions : Card.QROptions :=
  {| Card.qr_type := Some (u16 "png"); Card.qr_width := 300; Card.qr_margin := 2;
     Card.qr_dark := u16 "#10b981"; Card.qr_light := u16 "#0a001a" |}.

Section Endpoint.

(** The QR library's [QRCode.toBuffer]; a buffer is a list of bytes. *)
Variable toBuffer : jsstring -> Card.QROptions -> result (list N).

(** The [try] block of the handler up to [res.send]. *)
Definition qrBuffer (req : Request) (identifier : jsstring) : result (list N) :=
  let cardUrl := endpointCardUrl req identifier in
  toBuffer cardUrl endpointQROptions.

End Endpoint.

End QR.

(** ** Error page and request handlers *)

Module Handlers.

Import Resolver VCard Card QR.

(** *** Static text of the error page, around the message *)

Definition err_before_message : jsstring :=
  u16 "<!DOCTYPE html>
<html lang=" ++ dquote ++ u16 "en" ++ dquote ++ u16 ">
<head>
    <meta charset=" ++ dquote ++ u16 "UTF-8" ++ dquote ++ u16 ">
    <meta name=" ++ dquote ++ u16 "viewport" ++ dquote ++ u16 " content=" ++ dquote ++ u16 "width=device-width, initial-scale=1.0" ++ dquote ++ u16 ">
    <title>Error - BizBuz</title>
    <style>
        body {
            font-family: -apple-system, BlinkMacSystemFont, 'Segoe UI', Roboto, sans-serif;
            background: linear-gradient(135deg, #0a001a 0%, #1a0033 100%);
            color: white;
            display: flex;
            align-items: center;
            justify-content: center;
            min-height: 100vh;
            margin: 0;
            padding: 20px;
        }
        .error {
            background: rgba(255, 255, 255, 0.05);
            padding: 40px;
            border-radius: 20px;
            text-align: center;
            border: 1px solid rgba(239, 68, 68, 0.3);
        }
        h1 { color: #ef4444; margin-bottom: 16px; }
        p { color: rgba(255, 255, 255, 0.7); }
        a { color: #10b981; }
    </style>
</head>
<body>
    <div class=" ++ dquote ++ u16 "error" ++ dquote ++ u16 ">
        <h1>Oops!</h1>
        <p>".

Definition err_after_message : jsstring :=
  u16 "</p>
        <p style=" ++ dquote ++ u16 "margin-top: 20px;" ++ dquote ++ u16 "><a href=" ++ dquote ++ u16 "/" ++ dquote ++ u16 ">Back to BizBuz</a></p>
    </div>
</body>
</html>".

(** Generate error page. *)
Definition generateErrorPage (message : jsstring) : jsstring :=
  err_before_message ++ escapeHtml message ++ err_after_message.

(** What a handler hands to [res]: [res.send] of a string or of a
    buffer, or [res.json] of a value. *)
Inductive Body : Type :=
| SendText (text : jsstring)
| SendBuffer (bytes : list N)
| SendJson (v : value).

(** A reply: the status ([200] unless [res.status] sets it), the headers
    the handler sets itself, in the order of the [setHeader] calls, and
    the body. *)
Record Reply : Type := {
  status : N;
  headers : list (jsstring * jsstring);
  body : Body
}.

(** The body [{ error: 'Profile not found' }]. *)
Definition profileNotFound : value :=
  VObj [(u16 "error", VStr (u16 "Profile not found"))].

Section Server.

(** Configuration, the network, the host's [toUpperCase], the QR library
    and the [message] of a thrown error. *)
Variable PROF_BASE_URL : jsstring.
Variable fetch : jsstring -> result Response.
Variable toUpperCase : jsstring -> jsstring.
Variable toDataURL : jsstring -> QROptions -> result jsstring.
Variable toBuffer : jsstring -> QROptions -> result (list N).
Variable messageOf : exn -> jsstring.

(** GET /api/profile/:identifier - Get profile as JSON. *)
Definition apiProfileHandler (identifier : jsstring) : Reply :=
  let profile := fetchProfile PROF_BASE_URL fetch identifier in
  if negb (truthy profile) then
    {| status := 404; headers := []; body := SendJson profileNotFound |}
  else
    {| status := 200; headers := [];
       body := SendJson (VObj [(u16 "success", VBool true);
                               (u16 "profile", profile)]) |}.

(** GET /qr/:identifier - Generate QR code for card URL. *)
Definition qrHandler (req : Request) (identifier : jsstring) : Reply :=
  match qrBuffer toBuffer req identifier with
  | Ok buffer =>
      {| status := 200;
         headers := [(u16 "Content-Type", u16 "image/png")];
         body := SendBuffer buffer |}
  | Throw error =>
      {| status := 500; headers := [];
         body := SendJson (VObj [(u16 "error", VStr (messageOf error))]) |}
  end.

(** The reply of GET /vcard/:identifier once the profile is resolved. *)
Definition vcardReply (profile : Profile) : Reply :=
  let vcard := generateVCard profile in
  let filename := vcardFilename profile in
  {| status := 200;
     headers := [(u16 "Content-Type", u16 "text/vcard");
                 (u16 "Content-Disposition",
                  u16 "attachment; filename=" ++ dquote ++ filename ++ dquote)];
     body := SendText vcard |}.

(** GET /vcard/:identifier - Download vCard file. The renderers read
    the resolved value as a profile of text fields; [None] stands for a
    resolved value that is not one. *)
Definition vcardHandler (identifier : jsstring) : option Reply :=
  let profile := fetchProfile PROF_BASE_URL fetch identifier in
  if negb (truthy profile) then
    Some {| status := 404; headers := []; body := SendJson profileNotFound |}
  else option_map vcardReply (readProfile profile).

(** The reply of GET /card/:identifier once the profile is resolved:
    the page, or the error page when generating it throws. *)
Definition cardReply (profile : Profile) (identifier : jsstring) : Reply :=
  match generateBusinessCardPage toUpperCase toDataURL profile identifier with
  | Ok html => {| status := 200; headers := []; body := SendText html |}
  | Throw error =>
      {| status := 500; headers := [];
         body := SendText (generateErrorPage (messageOf error)) |}
  end.

(** GET /card/:identifier - View business card. *)
Definition cardHandler (identifier : jsstring) : option Reply :=
  let profile := fetchProfile PROF_BASE_URL fetch identifier in
  if negb (truthy profile) then
    Some {| status := 404; headers := [];
            body := SendText (generateErrorPage (u16 "Profile not found")) |}
  else option_map (fun typed => cardReply typed identifier) (readProfile profile).

End Server.

End Handlers.

(** ** The vCard renderer on a store *)

(** [generateVCard] once more, with what it reads and writes held in a
    store: the profile is an object behind a reference, read property by
    property each time the source reads it, and [lines] is an array
    allocated by the call and grown by [push]. *)

Module VCardStore.

Import QR.

(** What a reference points to. *)
Inductive cell : Type :=
| ProfileObject (fields : Profile)
| StringArray (items : list jsstring).

(** A store lists its cells; a reference is a position in it. *)
Definition store : Type := list cell.
Definition ref : Type := nat.

(** A computation on the store. *)
Definition M (A : Type) : Type := store -> A * store.

Definition ret {A} (a : A) : M A := fun st => (a, st).

Definition bindM {A B} (m : M A) (k : A -> M B) : M B :=
  fun st => let (a, st') := m st in k a st'.

Fixpoint updateAt {A} (n : nat) (f : A -> A) (l : list A) : list A :=
  match l, n with
  | [], _ => []
  | x :: rest, O => f x :: rest
  | x :: rest, S n' => x :: updateAt n' f rest
  end.

(** [[...]]: a new array, behind a reference not in use so far. *)
Definition newArray (items : list jsstring) : M ref :=
  fun st => (List.length st, st ++ [StringArray items]).

(** [a.push(x)]. *)
Definition arrayPush (a : ref) (x : jsstring) : M unit :=
  fun st =>
    (tt, updateAt a (fun c => match c with
                              | StringArray items => StringArray (items ++ [x])
                              | ProfileObject fields => ProfileObject fields
                              end) st).

(** [a.join(sep)]. *)
Definition arrayJoin (a : ref) (sep : jsstring) : M jsstring :=
  fun st =>
    (match nth_error st a with
     | Some (StringArray items) => join sep items
     | _ => []
     end, st).

(** [profile.f], [undefined] when the reference holds no profile. *)
Definition field (profile : ref) (f : Profile -> option jsstring)
  : M (option jsstring) :=
  fun st =>
    (match nth_error st profile with
     | Some (ProfileObject fields) => f fields
     | _ => None
     end, st).

(** [profile.social]. *)
Definition fieldSocial (profile : ref) : M (option Social) :=
  fun st =>
    (match nth_error st profile with
     | Some (ProfileObject fields) => social fields
     | _ => None
     end, st).

(** [profile.social.h], read below the test of [profile.social]. *)
Definition handle (h : Social -> option jsstring) (fields : Profile)
  : option jsstring :=
  match social fields with Some handles => h handles | None => None end.

End VCardStore.

Import VCardStore.

Declare Scope store_scope.
Notation "x <-- m ;; k" := (bindM m (fun x => k))
  (at level 61, m at next level, right associativity) : store_scope.
Notation "m ;;; k" := (bindM m (fun _ => k))
  (at level 61, right associativity) : store_scope.
Open Scope store_scope.

Module VCardRun.

Import QR.

(** [if (profile.f) { lines.push(line) }]: the property is read for the
    test and read again where the line is built. *)
Definition pushIfField (lines profile : ref) (f : Profile -> option jsstring)
           (line : jsstring -> jsstring) : M unit :=
  tested <-- field profile f ;;
  match present tested with
  | Some _ =>
      text <-- field profile f ;;
      arrayPush lines (line (interpolate text))
  | None => ret tt
  end.

(** Generate vCard 3.0 format, on the store. *)
Definition generateVCardOnStore (profile : ref) : M jsstring :=
  lines <-- newArray [u16 "BEGIN:VCARD"; u16 "VERSION:3.0"] ;;
  tested <-- field profile name ;;
  match present tested with
  | Some _ =>
      shown <-- field profile name ;;
      arrayPush lines (u16 "FN:" ++ interpolate shown) ;;;
      (* Try to split into first/last name *)
      whole <-- field profile name ;;
      let parts := split space (interpolate whole) in
      if Nat.leb 2 (List.length parts)
      then arrayPush lines (u16 "N:" ++ join [space] (slice1 parts) ++ u16 ";"
                              ++ hd [] parts ++ u16 ";;;")
      else
        again <-- field profile name ;;
        arrayPush lines (u16 "N:;" ++ interpolate again ++ u16 ";;;")
  | None => ret tt
  end ;;;
  pushIfField lines profile title (fun title => u16 "TITLE:" ++ title) ;;;
  pushIfField lines profile company (fun company => u16 "ORG:" ++ company) ;;;
  pushIfField lines profile email
    (fun email => u16 "EMAIL;TYPE=INTERNET:" ++ email) ;;;
  pushIfField lines profile phone (fun phone => u16 "TEL;TYPE=CELL:" ++ phone) ;;;
  pushIfField lines profile website (fun website => u16 "URL:" ++ website) ;;;
  pushIfField lines profile location
    (fun location => u16 "ADR;TYPE=WORK:;;" ++ location ++ u16 ";;;;") ;;;
  pushIfField lines profile bio (fun bio => u16 "NOTE:" ++ bio) ;;;
  (* Add social links as URLs *)
  present_social <-- fieldSocial profile ;;
  match present_social with
  | Some _ =>
      pushIfField lines profile (handle github)
        (fun github => u16 "URL;TYPE=GitHub:https://github.com/" ++ github) ;;;
      pushIfField lines profile (handle twitter)
        (fun twitter => u16 "URL;TYPE=Twitter:https://twitter.com/" ++ twitter) ;;;
      pushIfField lines profile (handle linkedin)
        (fun linkedin =>
           u16 "URL;TYPE=LinkedIn:https://linkedin.com/in/" ++ linkedin)
  | None => ret tt
  end ;;;
  arrayPush lines (u16 "END:VCARD") ;;;
  arrayJoin lines CRLF.

End VCardRun.

Import VCardRun.

(** ** Vocabulary of the statements *)

Module Spec.

(** The one outbound request failed: [fetch] rejected, or the response
    is not a 2xx one. *)
Definition upstreamFails (outcome : result Resolver.Response) : Prop :=
  (exists e, outcome = Throw e)
  \/ (exists response, outcome = Ok response /\ Resolver.ok response = false).

(** No handle under [social] is present. *)
Definition noHandles (s : option Social) : Prop :=
  match s with
  | None => True
  | Some handles =>
      present (github handles) = None
      /\ present (twitter handles) = None
      /\ present (linkedin handles) = None
  end.

(** [name] is the only field of the profile that is present. *)
Definition onlyName (profile : Profile) (n : jsstring) : Prop :=
  present (name profile) = Some n
  /\ present (title profile) = None
  /\ present (company profile) = None
  /\ present (email profile) = None
  /\ present (phone profile) = None
  /\ present (website profile) = None
  /\ present (location profile) = None
  /\ present (bio profile) = None
  /\ noHandles (social profile).

(** A profile with a name and nothing else. *)
Definition nameOnly (n : jsstring) : Profile :=
  {| name := Some n; title := None; company := None; email := None;
     phone := None; website := None; location := None; bio := None;
     social := None |}.

(** Text in which every line, the last one too, is followed by CRLF. *)
Definition terminatedLines (lines : list jsstring) : jsstring :=
  flat_map (fun line => line ++ CRLF) lines.

(** The line a present field contributes, none when it is not present. *)
Definition optLine (field : option jsstring) (line : jsstring -> jsstring)
  : list jsstring :=
  match present field with Some text => [line text] | None => [] end.

(** The lines of the fields after [name], in the order of the vCard. *)
Definition fieldLines (profile : Profile) : list jsstring :=
  optLine (title profile) (fun s => u16 "TITLE:" ++ s)
  ++ optLine (company profile) (fun s => u16 "ORG:" ++ s)
  ++ optLine (email profile) (fun s => u16 "EMAIL;TYPE=INTERNET:" ++ s)
  ++ optLine (phone profile) (fun s => u16 "TEL;TYPE=CELL:" ++ s)
  ++ optLine (website profile) (fun s => u16 "URL:" ++ s)
  ++ optLine (location profile) (fun s => u16 "ADR;TYPE=WORK:;;" ++ s ++ u16 ";;;;")
  ++ optLine (bio profile) (fun s => u16 "NOTE:" ++ s)
  ++ match social profile with
     | Some handles =>
         optLine (github handles)
           (fun s => u16 "URL;TYPE=GitHub:https://github.com/" ++ s)
         ++ optLine (twitter handles)
              (fun s => u16 "URL;TYPE=Twitter:https://twitter.com/" ++ s)
         ++ optLine (linkedin handles)
              (fun s => u16 "URL;TYPE=LinkedIn:https://linkedin.com/in/" ++ s)
     | None => []
     end.

(** [needle] occurs in [s]. *)
Definition occursIn (needle s : jsstring) : Prop :=
  exists before after, s = before ++ needle ++ after.

(** What one code unit becomes under HTML escaping. *)
Definition escapeUnit (c : code_unit) : jsstring :=
  if N.eqb c 38 then u16 "&amp;"
  else if N.eqb c 60 then u16 "&lt;"
  else if N.eqb c 62 then u16 "&gt;"
  else if N.eqb c 34 then (u16 "&quot;")
  else if N.eqb c 39 then u16 "&#039;"
  else [c].

(** The first code units of the words of a name, two at most. *)
Definition initialsOf (n : jsstring) : jsstring :=
  firstn 2 (flat_map (fun word => firstn 1 word) (split space n)).

(** A profile whose name and title hold markup. *)
Definition markupProfile : Profile :=
  {| name := Some (u16 "<b>"); title := Some (dquote ++ u16 ">");
     company := None; email := None; phone := None; website := None;
     location := None; bio := None; social := None |}.

(** One code unit of a file name after sanitising. *)
Definition sanitized (c : code_unit) : code_unit :=
  if VCard.filenameChar c then c else 95%N.

End Spec.

Import Spec.

(** ** Further vocabulary *)

Module SpecMore.

(** No field of the profile is present. *)
Definition nothingPresent (profile : Profile) : Prop :=
  present (name profile) = None
  /\ present (title profile) = None
  /\ present (company profile) = None
  /\ present (email profile) = None
  /\ present (phone profile) = None
  /\ present (website profile) = None
  /\ present (location profile) = None
  /\ present (bio profile) = None
  /\ noHandles (social profile).

(** The code units that delimit tags and attribute values. *)
Definition isMarkup (c : code_unit) : bool :=
  N.eqb c 60 || N.eqb c 62 || N.eqb c 34 || N.eqb c 39.

(** The code units [escapeHtml] rewrites. *)
Definition isSpecial (c : code_unit) : bool :=
  N.eqb c 38 || isMarkup c.

(** How many code units of [s] pass the test. *)
Definition countIf (test : code_unit -> bool) (s : jsstring) : nat :=
  List.length (filter test s).

(** The lines of a text, a line ending at each CRLF. *)
Fixpoint splitCRLF (s : jsstring) : list jsstring :=
  match s with
  | [] => [[]]
  | c :: rest =>
      match N.eqb c 13, rest with
      | true, d :: rest' =>
          if N.eqb d 10 then [] :: splitCRLF rest'
          else match splitCRLF rest with
               | w :: ws => (c :: w) :: ws
               | [] => [[c]]
               end
      | _, _ =>
          match splitCRLF rest with
          | w :: ws => (c :: w) :: ws
          | [] => [[c]]
          end
      end
  end.

(** No text of the profile holds a carriage return. *)
Definition noCR (field : option jsstring) : Prop :=
  forall text, present field = Some text -> ~ In 13%N text.

Definition noCRHandles (s : option Social) : Prop :=
  match s with
  | None => True
  | Some handles =>
      noCR (github handles) /\ noCR (twitter handles) /\ noCR (linkedin handles)
  end.

Definition singleLineFields (profile : Profile) : Prop :=
  noCR (name profile) /\ noCR (title profile) /\ noCR (company profile)
  /\ noCR (email profile) /\ noCR (phone profile) /\ noCR (website profile)
  /\ noCR (location profile) /\ noCR (bio profile)
  /\ noCRHandles (social profile).

(** The resolver is left with its fallback: the request failed, the
    response is not a 2xx one, its body does not parse, or reading the
    body's [profile] throws, the body being [null] (or [undefined], which
    no JSON text parses to). *)
Definition fallsBack (outcome : result Resolver.Response) : Prop :=
  upstreamFails outcome
  \/ (exists response,
        outcome = Ok response /\ Resolver.ok response = true
        /\ ((exists e, Resolver.json response = Throw e)
            \/ Resolver.json response = Ok VNull
            \/ Resolver.json response = Ok VUndefined)).

(** A body that is an array or a primitive other than [null]. *)
Definition plainBody (data : value) : bool :=
  match data with
  | VBool _ | VNum _ | VStr _ | VArr _ => true
  | VUndefined | VNull | VObj _ => false
  end.

(** Which fields are present, whatever they hold. *)
Definition isPresent (field : option jsstring) : bool :=
  match present field with Some _ => true | None => false end.

(** Two profiles with the same name, title and company, and the same
    fields present among the others. *)
Definition sameHeadSameShape (p q : Profile) : Prop :=
  present (name p) = present (name q)
  /\ present (title p) = present (title q)
  /\ present (company p) = present (company q)
  /\ isPresent (bio p) = isPresent (bio q)
  /\ isPresent (email p) = isPresent (email q)
  /\ isPresent (phone p) = isPresent (phone q)
  /\ isPresent (website p) = isPresent (website q)
  /\ isPresent (location p) = isPresent (location q).

End SpecMore.

Import SpecMore.

(** * Properties *)

(** ** Strings *)

Module JSFacts.

Lemma streq_refl (a : jsstring) : streq a a = true.
Proof.
  induction a as [|x a IH]; simpl; [reflexivity|].
  now rewrite N.eqb_refl, IH.
Qed.

Lemma streq_eq (a b : jsstring) : streq a b = true <-> a = b.
Proof.
  split; [|intros ->; apply streq_refl].
  revert b; induction a as [|x a IH]; intros [|y b]; simpl; try discriminate; auto.
  intros H; apply andb_true_iff in H as [Hx Hr].
  apply N.eqb_eq in Hx; f_equal; auto.
Qed.

Lemma streq_neq (a b : jsstring) : a <> b -> streq a b = false.
Proof.
  intros H; destruct (streq a b) eqn:E; [|reflexivity].
  now apply streq_eq in E.
Qed.

Lemma split_not_nil sep s : split sep s <> [].
Proof.
  destruct s as [|c s]; simpl; [discriminate|].
  destruct (N.eqb c sep); [discriminate|].
  destruct (split sep s); discriminate.
Qed.

(** A string with no separator in it is a single token. *)
Lemma split_no_sep sep s : ~ In sep s -> split sep s = [s].
Proof.
  induction s as [|c s IH]; intros H; simpl; [reflexivity|].
  destruct (N.eqb_spec c sep) as [->|_].
  - exfalso; apply H; now left.
  - rewrite IH; [reflexivity|]. intros Hin; apply H; now right.
Qed.

(** The first separator ends the first token. *)
Lemma split_at_first sep first more :
  ~ In sep first -> split sep (first ++ sep :: more) = first :: split sep more.
Proof.
  induction first as [|c first IH]; intros H; simpl.
  - now rewrite N.eqb_refl.
  - destruct (N.eqb_spec c sep) as [->|_].
    + exfalso; apply H; now left.
    + rewrite IH; [reflexivity|]. intros Hin; apply H; now right.
Qed.

(** Joining the tokens with the separator gives the string back. *)
Lemma join_split sep s : join [sep] (split sep s) = s.
Proof.
  induction s as [|c s IH]; simpl; [reflexivity|].
  destruct (N.eqb_spec c sep) as [->|_].
  - pose proof (split_not_nil sep s) as Hne.
    destruct (split sep s) as [|w ws] eqn:E; [contradiction|].
    simpl in *. now rewrite IH.
  - pose proof (split_not_nil sep s) as Hne.
    destruct (split sep s) as [|w ws] eqn:E; [contradiction|].
    destruct ws as [|w' ws]; simpl in *; now rewrite <- IH.
Qed.

Lemma split_tokens_no_sep sep s : Forall (fun w => ~ In sep w) (split sep s).
Proof.
  induction s as [|c s IH]; simpl; [constructor; [intros []|constructor]|].
  destruct (N.eqb_spec c sep) as [->|Hne].
  - constructor; [intros []|exact IH].
  - destruct (split sep s) as [|w ws]; [constructor; [|constructor]|].
    + intros [H|[]]; congruence.
    + inversion IH as [|? ? Hw Hws]; subst. constructor; [|exact Hws].
      intros [H|H]; [congruence|contradiction].
Qed.

(** Two tokens or more exactly when the string holds a separator. *)
Lemma split_length_ge2 sep s : 2 <= List.length (split sep s) <-> In sep s.
Proof.
  induction s as [|c s IH]; simpl.
  - split; [lia|intros []].
  - destruct (N.eqb_spec c sep) as [->|Hne].
    + pose proof (split_not_nil sep s).
      destruct (split sep s); [contradiction|]. simpl. split; [now left|lia].
    + pose proof (split_not_nil sep s).
      destruct (split sep s) as [|w ws] eqn:E; [contradiction|].
      simpl in *. rewrite IH. split; [now right|intros [H'|H']; congruence].
Qed.

Lemma replaceAll_app c by_ s t :
  replaceAll c by_ (s ++ t) = replaceAll c by_ s ++ replaceAll c by_ t.
Proof. unfold replaceAll. apply flat_map_app. Qed.

End JSFacts.

(** ** Profile resolver *)

Module ResolverFacts.

Import Resolver JSFacts.

Lemma demo_profile_name :
  getProp getDemoProfile (u16 "name") = Ok (VStr (u16 "Ada Lovelace")).
Proof. reflexivity. Qed.

Lemma fetchProfile_on_failure base fetch identifier :
  upstreamFails (fetch (profileUrl base identifier)) ->
  fetchProfile base fetch identifier
  = if streq identifier (u16 "demo") then getDemoProfile else VNull.
Proof.
  unfold fetchProfile, fetchProfile_try.
  intros [[e He]|[response [Hr Hok]]]; rewrite ?He, ?Hr; simpl; [reflexivity|].
  now rewrite Hok.
Qed.

(** C1. When the upstream fetch fails (the request is rejected, or the
    response is not a 2xx one), the resolver returns the built-in demo
    profile for the identifier [demo], whose [name] is [Ada Lovelace] and
    which is not [null], and returns [null] for every other identifier. *)
Theorem fetchProfile_failure_demo_or_null base fetch identifier :
  upstreamFails (fetch (profileUrl base identifier)) ->
  (identifier = u16 "demo" ->
     fetchProfile base fetch identifier = getDemoProfile)
  /\ (identifier <> u16 "demo" ->
     fetchProfile base fetch identifier = VNull)
  /\ getProp getDemoProfile (u16 "name") = Ok (VStr (u16 "Ada Lovelace"))
  /\ getDemoProfile <> VNull
  /\ truthy getDemoProfile = true.
Proof.
  intros Hfail. pose proof (fetchProfile_on_failure _ _ _ Hfail) as E.
  repeat split.
  - intros ->. exact E.
  - intros Hne. now rewrite E, (streq_neq _ _ Hne).
  - discriminate.
Qed.

Lemma fetchProfile_failure_demo_or_null_witness :
  fetchProfile (u16 "http://localhost:3012")
    (fun _ => Throw NetworkError) (u16 "demo") = getDemoProfile
  /\ fetchProfile (u16 "http://localhost:3012")
       (fun _ => Ok {| ok := false; json := Throw SyntaxError |}) (u16 "nobody")
     = VNull.
Proof.
  split.
  - apply (fetchProfile_failure_demo_or_null (u16 "http://localhost:3012")
             (fun _ => Throw NetworkError) (u16 "demo")).
    + left. exists NetworkError. reflexivity.
    + reflexivity.
  - apply (fetchProfile_failure_demo_or_null (u16 "http://localhost:3012")
             (fun _ => Ok {| ok := false; json := Throw SyntaxError |})
             (u16 "nobody")).
    + right. eexists. split; reflexivity.
    + vm_compute. discriminate.
Defined.

(** C9. On a 2xx response whose body parses to an object, the resolver
    returns the body's [profile] property when it is truthy and the body
    itself otherwise; the result is truthy, hence never the not-found
    [null], also for the empty object and for a [profile] that is [null]. *)
Theorem fetchProfile_success_unwraps base fetch identifier response props :
  fetch (profileUrl base identifier) = Ok response ->
  ok response = true ->
  json response = Ok (VObj props) ->
  fetchProfile base fetch identifier
  = match lookup (u16 "profile") props with
    | Some p => if truthy p then p else VObj props
    | None => VObj props
    end
  /\ truthy (fetchProfile base fetch identifier) = true
  /\ fetchProfile base fetch identifier <> VNull
  /\ (props = [] -> fetchProfile base fetch identifier = VObj [])
  /\ (lookup (u16 "profile") props = Some VNull ->
      fetchProfile base fetch identifier = VObj props).
Proof.
  intros Hf Hok Hj.
  assert (E : fetchProfile base fetch identifier
              = match lookup (u16 "profile") props with
                | Some p => if truthy p then p else VObj props
                | None => VObj props
                end).
  { unfold fetchProfile, fetchProfile_try. rewrite Hf. simpl. rewrite Hok, Hj.
    simpl. destruct (lookup (u16 "profile") props) as [p|]; reflexivity. }
  split; [exact E|]. rewrite E.
  assert (T : truthy match lookup (u16 "profile") props with
                     | Some p => if truthy p then p else VObj props
                     | None => VObj props
                     end = true).
  { destruct (lookup (u16 "profile") props) as [p|]; [|reflexivity].
    destruct (truthy p) eqn:Tp; [exact Tp|reflexivity]. }
  repeat split.
  - exact T.
  - intros Hnull. rewrite Hnull in T. discriminate.
  - intros ->. reflexivity.
  - intros ->. reflexivity.
Qed.

Lemma fetchProfile_success_unwraps_witness :
  fetchProfile (u16 "http://localhost:3012")
    (fun _ => Ok {| ok := true;
                    json := Ok (VObj [(u16 "profile", VNull)]) |})
    (u16 "demo")
  = VObj [(u16 "profile", VNull)].
Proof.
  exact (proj1 (fetchProfile_success_unwraps (u16 "http://localhost:3012")
                  (fun _ => Ok {| ok := true;
                                  json := Ok (VObj [(u16 "profile", VNull)]) |})
                  (u16 "demo") _ [(u16 "profile", VNull)]
                  eq_refl eq_refl eq_refl)).
Defined.

End ResolverFacts.

(** ** The demo card, from the resolver to the renderers *)

Module DemoFacts.

Import Resolver VCard Card.

(** With the profile service down, the vCard of [demo]. *)
Example demo_vcard :
  option_map generateVCard
    (readProfile (fetchProfile (u16 "http://localhost:3012")
                    (fun _ => Throw NetworkError) (u16 "demo")))
  = Some (join CRLF
            [u16 "BEGIN:VCARD";
             u16 "VERSION:3.0";
             u16 "FN:Ada Lovelace";
             u16 "N:Lovelace;Ada;;;";
             u16 "TITLE:Software Enchantress";
             u16 "ORG:Planet Nine";
             u16 "EMAIL;TYPE=INTERNET:ada@planetnine.app";
             u16 "TEL;TYPE=CELL:+1 (555) 123-4567";
             u16 "URL:https://planetnine.app";
             u16 "ADR;TYPE=WORK:;;The Cosmos;;;;";
             u16 "NOTE:Building the future of privacy-first technology.";
             u16 "URL;TYPE=GitHub:https://github.com/planet-nine-app";
             u16 "URL;TYPE=Twitter:https://twitter.com/planetnine";
             u16 "END:VCARD"]).
Proof. vm_compute. reflexivity. Qed.

Example demo_filename :
  option_map vcardFilename (readProfile getDemoProfile)
  = Some (u16 "Ada_Lovelace.vcf").
Proof. vm_compute. reflexivity. Qed.

Example demo_initials :
  option_map (fun profile => getInitials toUpperCaseLatin1 (name profile))
    (readProfile getDemoProfile)
  = Some (u16 "AL").
Proof. vm_compute. reflexivity. Qed.

Example stripScheme_examples :
  stripScheme (u16 "https://planetnine.app") = u16 "planetnine.app"
  /\ stripScheme (u16 "http://planetnine.app") = u16 "planetnine.app"
  /\ stripScheme (u16 "ftp://planetnine.app") = u16 "ftp://planetnine.app".
Proof. repeat split. Qed.

Example escapeHtml_example :
  escapeHtml (u16 "Tom & Jerry's <b>") = u16 "Tom &amp; Jerry&#039;s &lt;b&gt;".
Proof. reflexivity. Qed.

End DemoFacts.

(** ** vCard renderer *)

Module VCardFacts.

Import VCard JSFacts.

Lemma pushIf_app lines field line :
  pushIf lines field line = lines ++ optLine field line.
Proof.
  unfold pushIf, optLine, push.
  destruct (present field); [reflexivity|now rewrite app_nil_r].
Qed.

(** The array of lines, block by block. *)
Lemma vcardLines_blocks profile :
  vcardLines profile
  = [u16 "BEGIN:VCARD"; u16 "VERSION:3.0"]
    ++ match present (name profile) with
       | Some n =>
           [u16 "FN:" ++ n;
            if Nat.leb 2 (List.length (split space n))
            then u16 "N:" ++ join [space] (tl (split space n)) ++ u16 ";"
                   ++ hd [] (split space n) ++ u16 ";;;"
            else u16 "N:;" ++ n ++ u16 ";;;"]
       | None => []
       end
    ++ fieldLines profile ++ [u16 "END:VCARD"].
Proof.
  unfold vcardLines, fieldLines. cbv zeta.
  destruct (social profile) as [handles|]; rewrite !pushIf_app; unfold push, slice1;
    destruct (present (name profile)) as [n|];
    try destruct (Nat.leb 2 (List.length (split space n)));
    rewrite <- ?app_assoc; simpl; rewrite ?app_nil_r; reflexivity.
Qed.

Lemma onlyName_fieldLines profile n : onlyName profile n -> fieldLines profile = [].
Proof.
  intros (_ & Ht & Hc & He & Hp & Hw & Hl & Hb & Hs).
  unfold fieldLines, optLine. rewrite Ht, Hc, He, Hp, Hw, Hl, Hb. simpl.
  destruct (social profile) as [handles|]; [|reflexivity].
  destruct Hs as (Hg & Htw & Hli). now rewrite Hg, Htw, Hli.
Qed.

(** The [N:] line of a name, from where its first space is. *)
Lemma name_line_cases n :
  let nline :=
    if Nat.leb 2 (List.length (split space n))
    then u16 "N:" ++ join [space] (tl (split space n)) ++ u16 ";"
           ++ hd [] (split space n) ++ u16 ";;;"
    else u16 "N:;" ++ n ++ u16 ";;;" in
  (forall first more, n = first ++ space :: more -> ~ In space first ->
     nline = u16 "N:" ++ more ++ u16 ";" ++ first ++ u16 ";;;")
  /\ (~ In space n -> nline = u16 "N:;" ++ n ++ u16 ";;;").
Proof.
  intros nline; subst nline; split.
  - intros first more -> Hfirst.
    rewrite (split_at_first space first more Hfirst).
    pose proof (split_not_nil space more) as Hne.
    destruct (split space more) as [|w ws] eqn:E; [contradiction|].
    cbn [List.length Nat.leb tl hd]. rewrite <- E, join_split. reflexivity.
  - intros Hno. rewrite (split_no_sep space n Hno). reflexivity.
Qed.

Lemma join_lines_cons sep w ws :
  ws <> [] -> join sep (w :: ws) = w ++ sep ++ join sep ws.
Proof. destruct ws; [contradiction|reflexivity]. Qed.

(** C4. With a name present the vCard starts BEGIN:VCARD, VERSION:3.0,
    FN:<name>, and then the N line: with two tokens or more between single
    spaces it is N:<the tokens after the first, joined by a space>;<first
    token>;;; (the text after the first space, then the text before it),
    and otherwise N:;<name>;;;. Ada Lovelace gives N:Lovelace;Ada;;; and
    Cher gives N:;Cher;;;. *)
Theorem vcard_name_lines profile n :
  present (name profile) = Some n ->
  exists nline rest,
    vcardLines profile
    = u16 "BEGIN:VCARD" :: u16 "VERSION:3.0" :: (u16 "FN:" ++ n) :: nline :: rest
    /\ generateVCard profile
       = u16 "BEGIN:VCARD" ++ CRLF ++ u16 "VERSION:3.0" ++ CRLF
         ++ (u16 "FN:" ++ n) ++ CRLF ++ nline ++ CRLF ++ join CRLF rest
    /\ (2 <= List.length (split space n) ->
        nline = u16 "N:" ++ join [space] (tl (split space n)) ++ u16 ";"
                ++ hd [] (split space n) ++ u16 ";;;")
    /\ (List.length (split space n) < 2 -> nline = u16 "N:;" ++ n ++ u16 ";;;")
    /\ (forall first more, n = first ++ space :: more -> ~ In space first ->
        nline = u16 "N:" ++ more ++ u16 ";" ++ first ++ u16 ";;;")
    /\ (~ In space n -> nline = u16 "N:;" ++ n ++ u16 ";;;")
    /\ (2 <= List.length (split space n) <-> In space n)
    /\ Forall (fun token => ~ In space token) (split space n)
    /\ (n = u16 "Ada Lovelace" -> nline = u16 "N:Lovelace;Ada;;;")
    /\ (n = u16 "Cher" -> nline = u16 "N:;Cher;;;").
Proof.
  intros Hn.
  pose proof (vcardLines_blocks profile) as Hlines. rewrite Hn in Hlines.
  set (nline := if Nat.leb 2 (List.length (split space n))
                then u16 "N:" ++ join [space] (tl (split space n)) ++ u16 ";"
                       ++ hd [] (split space n) ++ u16 ";;;"
                else u16 "N:;" ++ n ++ u16 ";;;") in *.
  exists nline, (fieldLines profile ++ [u16 "END:VCARD"]).
  assert (Hrest : fieldLines profile ++ [u16 "END:VCARD"] <> []).
  { intros H. apply app_eq_nil in H as [_ H]. discriminate. }
  split; [exact Hlines|]. split.
  { unfold generateVCard. rewrite Hlines. cbn [app].
    rewrite !join_lines_cons by (discriminate || exact Hrest).
    rewrite <- !app_assoc. reflexivity. }
  destruct (name_line_cases n) as [Hsplit Hwhole]. fold nline in Hsplit, Hwhole.
  repeat split.
  - intros Hge. subst nline. apply Nat.leb_le in Hge. now rewrite Hge.
  - intros Hlt. subst nline. apply Nat.leb_gt in Hlt. now rewrite Hlt.
  - exact Hsplit.
  - exact Hwhole.
  - apply split_length_ge2.
  - apply split_length_ge2.
  - apply split_tokens_no_sep.
  - intros ->. subst nline. reflexivity.
  - intros ->. subst nline. reflexivity.
Qed.

Lemma vcard_name_lines_witness :
  exists nline rest,
    vcardLines (nameOnly (u16 "Ada Lovelace"))
    = u16 "BEGIN:VCARD" :: u16 "VERSION:3.0" :: (u16 "FN:" ++ u16 "Ada Lovelace")
        :: nline :: rest
    /\ nline = u16 "N:Lovelace;Ada;;;".
Proof.
  destruct (vcard_name_lines (nameOnly (u16 "Ada Lovelace")) (u16 "Ada Lovelace")
              eq_refl) as (nline & rest & Hl & _ & _ & _ & _ & _ & _ & _ & Hada & _).
  exists nline, rest. split; [exact Hl|exact (Hada eq_refl)].
Defined.

(** C2, as the code has it. When [name] is the only field present, the
    array of lines is exactly BEGIN:VCARD, VERSION:3.0, FN:<name>, the N
    line, END:VCARD, in that order, and the text is these lines with CRLF
    between them: each of the first four is followed by CRLF and nothing
    follows END:VCARD. *)
Theorem vcard_only_name_lines profile n :
  onlyName profile n ->
  exists nline,
    vcardLines profile
    = [u16 "BEGIN:VCARD"; u16 "VERSION:3.0"; u16 "FN:" ++ n; nline; u16 "END:VCARD"]
    /\ (exists fields, nline = u16 "N:" ++ fields)
    /\ generateVCard profile
       = u16 "BEGIN:VCARD" ++ CRLF ++ u16 "VERSION:3.0" ++ CRLF
         ++ (u16 "FN:" ++ n) ++ CRLF ++ nline ++ CRLF ++ u16 "END:VCARD"
    /\ terminatedLines (vcardLines profile) = generateVCard profile ++ CRLF.
Proof.
  intros Honly. pose proof (onlyName_fieldLines _ _ Honly) as Hfields.
  destruct Honly as (Hn & _).
  pose proof (vcardLines_blocks profile) as Hlines.
  rewrite Hn, Hfields in Hlines. cbn [app] in Hlines.
  eexists. split; [exact Hlines|]. split.
  { destruct (Nat.leb 2 (List.length (split space n))); eexists; reflexivity. }
  unfold generateVCard, terminatedLines. rewrite Hlines. split.
  - cbn [join]. rewrite <- !app_assoc. reflexivity.
  - cbn [join flat_map]. rewrite <- !app_assoc. rewrite app_nil_r. reflexivity.
Qed.

Lemma vcard_only_name_lines_witness :
  exists nline,
    vcardLines (nameOnly (u16 "Cher"))
    = [u16 "BEGIN:VCARD"; u16 "VERSION:3.0"; u16 "FN:" ++ u16 "Cher"; nline;
       u16 "END:VCARD"].
Proof.
  destruct (vcard_only_name_lines (nameOnly (u16 "Cher")) (u16 "Cher"))
    as (nline & Hl & _).
  - repeat split.
  - exists nline. exact Hl.
Defined.

(** C2, as it is worded, fails: for the profile whose only field is the
    name Cher the text ends with END:VCARD, with no CRLF after it. *)
Lemma vcard_last_line_not_terminated :
  onlyName (nameOnly (u16 "Cher")) (u16 "Cher")
  /\ generateVCard (nameOnly (u16 "Cher"))
     = u16 "BEGIN:VCARD" ++ CRLF ++ u16 "VERSION:3.0" ++ CRLF ++ u16 "FN:Cher"
       ++ CRLF ++ u16 "N:;Cher;;;" ++ CRLF ++ u16 "END:VCARD"
  /\ generateVCard (nameOnly (u16 "Cher"))
     <> terminatedLines [u16 "BEGIN:VCARD"; u16 "VERSION:3.0"; u16 "FN:Cher";
                         u16 "N:;Cher;;;"; u16 "END:VCARD"]
  /\ (forall text, generateVCard (nameOnly (u16 "Cher")) <> text ++ CRLF).
Proof.
  split; [repeat split|]. split; [reflexivity|]. split.
  - vm_compute. discriminate.
  - intros text H. apply (f_equal (fun s => last s 0%N)) in H.
    change (text ++ CRLF) with (text ++ [13%N] ++ [10%N]) in H.
    rewrite app_assoc, last_last in H. vm_compute in H. discriminate.
Qed.

Lemma filenameChar_class c :
  filenameChar c = true
  <-> In c (u16 "abcdefghijklmnopqrstuvwxyzABCDEFGHIJKLMNOPQRSTUVWXYZ0123456789.-").
Proof.
  unfold filenameChar. split.
  - intros H.
    assert (Hc : (c <= 122)%N).
    { repeat (apply orb_true_iff in H as [H|H]);
        try (apply andb_true_iff in H as [_ H]; apply N.leb_le in H; lia);
        apply N.eqb_eq in H; lia. }
    revert H. pattern c. 
    assert (Hall : forallb (fun c => implb
                     ((97 <=? c) && (c <=? 122) || (65 <=? c) && (c <=? 90)
                      || (48 <=? c) && (c <=? 57) || (c =? 46) || (c =? 45))%N
                     (existsb (N.eqb c)
                        (u16 "abcdefghijklmnopqrstuvwxyzABCDEFGHIJKLMNOPQRSTUVWXYZ0123456789.-")))
                   (map N.of_nat (seq 0 123)) = true) by (vm_compute; reflexivity).
    rewrite forallb_forall in Hall.
    intros H. specialize (Hall c). 
    assert (Hin : In c (map N.of_nat (seq 0 123))).
    { apply in_map_iff. exists (N.to_nat c). split; [lia|]. apply in_seq. lia. }
    specialize (Hall Hin). rewrite H in Hall. cbn [implb] in Hall.
    apply existsb_exists in Hall as (x & Hx & Hcx). apply N.eqb_eq in Hcx. now subst.
  - intros H. vm_compute in H.
    repeat (destruct H as [<-|H]; [reflexivity|]). contradiction.
Qed.

Lemma replaceOutside_map inClass by1 s :
  replaceOutside inClass [by1] s = map (fun c => if inClass c then c else by1) s.
Proof.
  unfold replaceOutside. induction s as [|c s IH]; simpl; [reflexivity|].
  rewrite IH. now destruct (inClass c).
Qed.

(** C6. The download file name is [profile.name], or [contact] when no
    name is present, followed by [.vcf], with every code unit outside
    [A-Za-z0-9.-] replaced by an underscore; the extension comes out
    unchanged, and the name Jane O'Brien! gives Jane_O_Brien_.vcf. *)
Theorem vcardFilename_sanitized profile :
  vcardFilename profile
  = map sanitized (orElse (name profile) (u16 "contact") ++ u16 ".vcf")
  /\ vcardFilename profile
     = map sanitized (orElse (name profile) (u16 "contact")) ++ u16 ".vcf"
  /\ (forall c, sanitized c
                = if existsb (N.eqb c)
                       (u16 "abcdefghijklmnopqrstuvwxyzABCDEFGHIJKLMNOPQRSTUVWXYZ0123456789.-")
                  then c else 95%N)
  /\ (present (name profile) = None -> vcardFilename profile = u16 "contact.vcf")
  /\ (name profile = Some (u16 "Jane O'Brien!") ->
      vcardFilename profile = u16 "Jane_O_Brien_.vcf").
Proof.
  assert (E : vcardFilename profile
              = map sanitized (orElse (name profile) (u16 "contact") ++ u16 ".vcf")).
  { unfold vcardFilename. change (u16 "_") with [95%N].
    apply replaceOutside_map. }
  split; [exact E|]. split; [rewrite E, map_app; reflexivity|]. split.
  { intros c. unfold sanitized.
    destruct (filenameChar c) eqn:Hc.
    - apply filenameChar_class in Hc.
      destruct (existsb _ _) eqn:Hex; [reflexivity|].
      assert (Hex' : existsb (N.eqb c)
        (u16 "abcdefghijklmnopqrstuvwxyzABCDEFGHIJKLMNOPQRSTUVWXYZ0123456789.-") = true).
      { apply existsb_exists. exists c. split; [exact Hc|apply N.eqb_refl]. }
      congruence.
    - destruct (existsb _ _) eqn:Hex; [|reflexivity].
      apply existsb_exists in Hex as (x & Hx & Hcx). apply N.eqb_eq in Hcx. subst x.
      apply filenameChar_class in Hx. congruence. }
  split.
  - intros Hnone. rewrite E. unfold orElse. rewrite Hnone. reflexivity.
  - intros Hjane. rewrite E. unfold orElse. rewrite Hjane. reflexivity.
Qed.

Section OnStore.

Variable st : store.
Variable profile : ref.
Variable fields : Profile.
Hypothesis Hprofile : nth_error st profile = Some (ProfileObject fields).

Lemma profile_kept extra :
  nth_error (st ++ extra) profile = Some (ProfileObject fields).
Proof.
  rewrite nth_error_app1; [exact Hprofile|].
  apply nth_error_Some. rewrite Hprofile. discriminate.
Qed.

Lemma field_on f lines :
  field profile f (st ++ [StringArray lines])
  = (f fields, st ++ [StringArray lines]).
Proof. unfold field. now rewrite profile_kept. Qed.

Lemma fieldSocial_on lines :
  fieldSocial profile (st ++ [StringArray lines])
  = (social fields, st ++ [StringArray lines]).
Proof. unfold fieldSocial. now rewrite profile_kept. Qed.

Lemma updateAt_end {A} (f : A -> A) (l : list A) c :
  updateAt (List.length l) f (l ++ [c]) = l ++ [f c].
Proof. induction l as [|x l IH]; [reflexivity|]. cbn. now rewrite IH. Qed.

Lemma arrayPush_on x lines :
  arrayPush (List.length st) x (st ++ [StringArray lines])
  = (tt, st ++ [StringArray (push lines x)]).
Proof. unfold arrayPush. now rewrite updateAt_end. Qed.

Lemma arrayJoin_on sep lines :
  arrayJoin (List.length st) sep (st ++ [StringArray lines])
  = (join sep lines, st ++ [StringArray lines]).
Proof.
  unfold arrayJoin. rewrite nth_error_app2 by apply Nat.le_refl.
  now rewrite Nat.sub_diag.
Qed.

Lemma bindM_on {A B} (m : M A) (k : A -> M B) s x s' :
  m s = (x, s') -> bindM m k s = k x s'.
Proof. unfold bindM. now intros ->. Qed.

Lemma bindM_assoc {A B C} (m : M A) (k : A -> M B) (k' : B -> M C) s :
  bindM (bindM m k) k' s = bindM m (fun x => bindM (k x) k') s.
Proof. unfold bindM. now destruct (m s). Qed.

Lemma present_text v text : present v = Some text -> QR.interpolate v = text.
Proof.
  unfold present. destruct v as [s|]; [|discriminate].
  destruct (nonempty s); [|discriminate]. now intros [= ->].
Qed.

Lemma pushIfField_on f line lines :
  pushIfField (List.length st) profile f line (st ++ [StringArray lines])
  = (tt, st ++ [StringArray (pushIf lines (f fields) line)]).
Proof.
  unfold pushIfField, bindM, pushIf. rewrite field_on.
  destruct (present (f fields)) as [text|] eqn:E; [|reflexivity].
  rewrite field_on, arrayPush_on. now rewrite (present_text _ _ E).
Qed.

(** One run returns the text of [generateVCard] and leaves the store as
    it was, with the array of lines added at its end. *)
Lemma generateVCardOnStore_run :
  generateVCardOnStore profile st
  = (generateVCard fields, st ++ [StringArray (vcardLines fields)]).
Proof.
  unfold generateVCardOnStore, generateVCard, vcardLines. cbv zeta.
  erewrite bindM_on by reflexivity.
  erewrite bindM_on by apply field_on. cbv beta.
  destruct (social fields) as [handles|] eqn:Es;
    destruct (present (name fields)) as [n|] eqn:E;
    try destruct (Nat.leb 2 (List.length (split space n))) eqn:L;
    repeat (rewrite ?bindM_assoc;
            erewrite bindM_on
              by first [ apply field_on | apply arrayPush_on
                       | apply pushIfField_on | apply fieldSocial_on
                       | reflexivity ];
            cbv beta; rewrite ?Es, ?(present_text _ _ E), ?L);
    rewrite arrayJoin_on; unfold handle; rewrite ?Es; reflexivity.
Qed.

End OnStore.

(** C8. Rendering a profile twice, with nothing done to the profile in
    between, gives the same text code unit for code unit: a run reads the
    profile and writes only to the array of lines it allocates itself, so
    it returns the text of [generateVCard] for the fields the profile
    holds, leaves every cell the store had as it was, and returns that
    text again on the store it leaves and on any other store in which a
    profile holds the same fields. *)
Theorem generateVCard_deterministic st profile fields :
  nth_error st profile = Some (ProfileObject fields) ->
  fst (generateVCardOnStore profile (snd (generateVCardOnStore profile st)))
  = fst (generateVCardOnStore profile st)
  /\ fst (generateVCardOnStore profile st) = generateVCard fields
  /\ (forall r c, nth_error st r = Some c ->
        nth_error (snd (generateVCardOnStore profile st)) r = Some c)
  /\ (forall st' profile',
        nth_error st' profile' = Some (ProfileObject fields) ->
        fst (generateVCardOnStore profile' st')
        = fst (generateVCardOnStore profile st)).
Proof.
  intros Hprofile.
  rewrite (generateVCardOnStore_run st profile fields Hprofile). cbn [fst snd].
  split; [|split; [reflexivity|split]].
  - rewrite (generateVCardOnStore_run _ profile fields
               (profile_kept st profile fields Hprofile _)).
    reflexivity.
  - intros r c Hr. rewrite nth_error_app1; [exact Hr|].
    apply nth_error_Some. rewrite Hr. discriminate.
  - intros st' profile' Hprofile'.
    now rewrite (generateVCardOnStore_run st' profile' fields Hprofile').
Qed.

Lemma generateVCard_deterministic_witness :
  fst (generateVCardOnStore 0
         (snd (generateVCardOnStore 0 [ProfileObject (nameOnly (u16 "Cher"))])))
  = fst (generateVCardOnStore 0 [ProfileObject (nameOnly (u16 "Cher"))]).
Proof.
  exact (proj1 (generateVCard_deterministic
                  [ProfileObject (nameOnly (u16 "Cher"))] 0
                  (nameOnly (u16 "Cher")) eq_refl)).
Defined.

End VCardFacts.

(** ** HTML card page *)

Module CardFacts.

Import Card JSFacts.

Lemma flat_map_compose {A B C} (f : A -> list B) (g : B -> list C) (s : list A) :
  flat_map g (flat_map f s) = flat_map (fun x => flat_map g (f x)) s.
Proof.
  induction s as [|x s IH]; simpl; [reflexivity|].
  now rewrite flat_map_app, IH.
Qed.

Lemma escape_chain_unit c :
  replaceAll 39 (u16 "&#039;")
    (replaceAll 34 (u16 "&quot;")
       (replaceAll 62 (u16 "&gt;")
          (replaceAll 60 (u16 "&lt;") (replaceAll 38 (u16 "&amp;") [c]))))
  = escapeUnit c.
Proof.
  unfold escapeUnit, replaceAll at 5. cbn [flat_map]. rewrite app_nil_r.
  destruct (N.eqb_spec c 38) as [->|H38]; [reflexivity|].
  unfold replaceAll at 4. cbn [flat_map]. rewrite app_nil_r.
  destruct (N.eqb_spec c 60) as [->|H60]; [reflexivity|].
  unfold replaceAll at 3. cbn [flat_map]. rewrite app_nil_r.
  destruct (N.eqb_spec c 62) as [->|H62]; [reflexivity|].
  unfold replaceAll at 2. cbn [flat_map]. rewrite app_nil_r.
  destruct (N.eqb_spec c 34) as [->|H34]; [reflexivity|].
  unfold replaceAll. cbn [flat_map]. rewrite app_nil_r.
  destruct (N.eqb_spec c 39) as [->|H39]; reflexivity.
Qed.

(** Escaping works code unit by code unit. *)
Lemma escapeHtml_units s : escapeHtml s = flat_map escapeUnit s.
Proof.
  unfold escapeHtml. destruct s as [|c0 s0]; [reflexivity|].
  cbn [nonempty negb]. generalize (c0 :: s0) as s. clear. intros s.
  induction s as [|c s IH]; [reflexivity|].
  change (c :: s) with ([c] ++ s). rewrite !replaceAll_app, IH.
  rewrite escape_chain_unit. cbn [flat_map app]. reflexivity.
Qed.

Lemma escapeHtml_app s t : escapeHtml (s ++ t) = escapeHtml s ++ escapeHtml t.
Proof. rewrite !escapeHtml_units. apply flat_map_app. Qed.

(** No [<], [>], double or single quote is left in escaped text. *)
Lemma escapeHtml_no_markup s c :
  In c (escapeHtml s) -> c <> 60%N /\ c <> 62%N /\ c <> 34%N /\ c <> 39%N.
Proof.
  rewrite escapeHtml_units. intros H.
  apply in_flat_map in H as (x & _ & Hx). unfold escapeUnit in Hx.
  destruct (N.eqb_spec x 38); [vm_compute in Hx; intuition (subst; discriminate)|].
  destruct (N.eqb_spec x 60); [vm_compute in Hx; intuition (subst; discriminate)|].
  destruct (N.eqb_spec x 62); [vm_compute in Hx; intuition (subst; discriminate)|].
  destruct (N.eqb_spec x 34); [vm_compute in Hx; intuition (subst; discriminate)|].
  destruct (N.eqb_spec x 39); [vm_compute in Hx; intuition (subst; discriminate)|].
  destruct Hx as [<-|[]]. auto.
Qed.

Lemma occursIn_nonempty needle s : needle <> [] -> occursIn needle s -> s <> [].
Proof.
  intros Hne (before & after & ->) H.
  apply app_eq_nil in H as [_ H]. apply app_eq_nil in H as [H _]. contradiction.
Qed.

Lemma present_nonempty s : s <> [] -> present (Some s) = Some s.
Proof. destruct s; [contradiction|reflexivity]. Qed.

(** C7. When [bio] holds [<script>], the page carries, at the place of
    the bio (the sixteenth part of the template, inside the paragraph of
    class [bio]), the escaped bio: it holds [&lt;script&gt;], no [<] at
    all, and so no [<script>]. *)
Theorem bio_script_escaped toUpperCase toDataURL profile identifier b qr :
  bio profile = Some b ->
  occursIn (u16 "<script>") b ->
  toDataURL (pageCardUrl identifier) pageQROptions = Ok qr ->
  exists before after,
    pageParts toUpperCase profile identifier qr
    = before
      ++ [(u16 "<p class=" ++ dquote ++ u16 "bio" ++ dquote ++ u16 ">" ++ dquote)
          ++ escapeHtml b ++ (dquote ++ u16 "</p>")]
      ++ after
    /\ List.length before = 15
    /\ generateBusinessCardPage toUpperCase toDataURL profile identifier
       = Ok (List.concat before
             ++ ((u16 "<p class=" ++ dquote ++ u16 "bio" ++ dquote ++ u16 ">" ++ dquote)
                 ++ escapeHtml b ++ (dquote ++ u16 "</p>"))
             ++ List.concat after)
    /\ occursIn (u16 "&lt;script&gt;") (escapeHtml b)
    /\ ~ occursIn (u16 "<script>") (escapeHtml b)
    /\ ~ In 60%N (escapeHtml b).
Proof.
  intros Hbio Hocc Hqr.
  assert (Hpres : present (bio profile) = Some b).
  { rewrite Hbio. apply present_nonempty.
    apply (occursIn_nonempty (u16 "<script>")); [discriminate|exact Hocc]. }
  exists (firstn 15 (pageParts toUpperCase profile identifier qr)),
         (skipn 16 (pageParts toUpperCase profile identifier qr)).
  assert (Hparts : pageParts toUpperCase profile identifier qr
    = firstn 15 (pageParts toUpperCase profile identifier qr)
      ++ [(u16 "<p class=" ++ dquote ++ u16 "bio" ++ dquote ++ u16 ">" ++ dquote)
          ++ escapeHtml b ++ (dquote ++ u16 "</p>")]
      ++ skipn 16 (pageParts toUpperCase profile identifier qr)).
  { unfold pageParts. rewrite Hpres. reflexivity. }
  split; [exact Hparts|]. split; [reflexivity|]. split.
  { unfold generateBusinessCardPage. rewrite Hqr. cbn [bind]. f_equal.
    rewrite Hparts at 1. rewrite !concat_app. cbn [List.concat].
    now rewrite app_nil_r. }
  assert (Hno : ~ In 60%N (escapeHtml b)).
  { intros Hin. apply escapeHtml_no_markup in Hin as [H _]. now apply H. }
  split; [|split; [|exact Hno]].
  - destruct Hocc as (x & y & ->). exists (escapeHtml x), (escapeHtml y).
    rewrite !escapeHtml_app. reflexivity.
  - intros (x & y & Hxy). apply Hno. rewrite Hxy.
    apply in_or_app. right. left. reflexivity.
Qed.

Lemma bio_script_escaped_witness :
  exists before after,
    pageParts toUpperCaseLatin1
      {| name := None; title := None; company := None; email := None;
         phone := None; website := None; location := None;
         bio := Some (u16 "<script>alert(1)</script>"); social := None |}
      (u16 "demo") (u16 "data:image/png;base64,")
    = before
      ++ [(u16 "<p class=" ++ dquote ++ u16 "bio" ++ dquote ++ u16 ">" ++ dquote)
          ++ escapeHtml (u16 "<script>alert(1)</script>") ++ (dquote ++ u16 "</p>")]
      ++ after
    /\ List.length before = 15.
Proof.
  destruct (bio_script_escaped toUpperCaseLatin1
              (fun _ _ => Ok (u16 "data:image/png;base64,"))
              {| name := None; title := None; company := None; email := None;
                 phone := None; website := None; location := None;
                 bio := Some (u16 "<script>alert(1)</script>"); social := None |}
              (u16 "demo") (u16 "<script>alert(1)</script>")
              (u16 "data:image/png;base64,") eq_refl)
    as (before & after & Hparts & Hlen & _).
  - exists [], (u16 "alert(1)</script>"). reflexivity.
  - reflexivity.
  - exists before, after. split; [exact Hparts|exact Hlen].
Defined.

(** C3 fails on the code. For the profile named [<b>] whose title is a
    double quote followed by [>], the document title and the avatar carry
    the [<] of the name as it is and the meta description carries the
    title as it is, quote and [>] included, while the heading below
    carries the name escaped. *)
Theorem page_head_not_escaped identifier qr :
  exists rest,
    generateBusinessCardPage toUpperCaseLatin1 (fun _ _ => Ok qr)
      markupProfile identifier
    = Ok (seg_doctype ++ u16 "<b>" ++ seg_after_title ++ (dquote ++ u16 ">")
          ++ seg_meta_at ++ u16 "Planet Nine" ++ seg_style_to_avatar
          ++ u16 "<" ++ seg_avatar_to_name ++ u16 "&lt;b&gt;" ++ rest)
    /\ escapeHtml (u16 "<b>") = u16 "&lt;b&gt;"
    /\ escapeHtml (dquote ++ u16 ">") = u16 "&quot;&gt;"
    /\ escapeHtml (u16 "<") = u16 "&lt;".
Proof.
  eexists. split; [|repeat split].
  unfold generateBusinessCardPage. cbn [bind]. f_equal.
  unfold pageParts. cbn [List.concat].
  change (orElse (name markupProfile) (u16 "BizBuz")) with (u16 "<b>").
  change (orElse (title markupProfile) []) with (dquote ++ u16 ">").
  change (orElse (company markupProfile) (u16 "Planet Nine")) with (u16 "Planet Nine").
  change (getInitials toUpperCaseLatin1 (name markupProfile)) with (u16 "<").
  change (escapeHtml (orElse (name markupProfile) (u16 "Anonymous")))
    with (u16 "&lt;b&gt;").
  rewrite <- !app_assoc. reflexivity.
Qed.

Lemma split_spaces k : split space (repeat space k) = repeat [] (S k).
Proof.
  induction k as [|k IH]; [reflexivity|].
  cbn [repeat split]. rewrite N.eqb_refl, IH. reflexivity.
Qed.

Lemma flat_map_repeat_nil {A B} (f : list A -> list B) k :
  f [] = [] -> flat_map f (repeat [] k) = [].
Proof.
  intros Hf. induction k as [|k IH]; [reflexivity|].
  cbn [repeat flat_map]. now rewrite Hf, IH.
Qed.

(** The first code units of the words, put together. *)
Lemma initials_concat words :
  joinU [] (map (fun word => index0 word) words)
  = flat_map (fun word => firstn 1 word) words.
Proof.
  unfold joinU. induction words as [|w ws IH]; [reflexivity|].
  cbn [map flat_map]. rewrite <- IH.
  destruct ws as [|w' ws]; destruct w as [|c w]; cbn; rewrite ?app_nil_r; reflexivity.
Qed.

(** C10, as the code has it. Without a name, or with the empty one, the
    initials are [?]. Otherwise they are the upper-casing of the first
    code units of the space-separated words, put together and cut to two
    code units at most before the upper-casing; a name of spaces only
    gives the empty string, not [?]. *)
Theorem getInitials_cases (toUpperCase : jsstring -> jsstring) :
  toUpperCase [] = [] ->
  getInitials toUpperCase None = u16 "?"
  /\ getInitials toUpperCase (Some []) = u16 "?"
  /\ (forall n : jsstring, n <> [] ->
        getInitials toUpperCase (Some n) = toUpperCase (initialsOf n)
        /\ List.length (initialsOf n) <= 2)
  /\ (forall k, 0 < k -> getInitials toUpperCase (Some (repeat space k)) = []).
Proof.
  intros Hempty.
  assert (Hsome : forall n, n <> [] ->
            getInitials toUpperCase (Some n) = toUpperCase (initialsOf n)).
  { intros n Hn. unfold getInitials. rewrite (present_nonempty n Hn).
    unfold substring0, initialsOf. now rewrite initials_concat. }
  split; [reflexivity|]. split; [reflexivity|]. split.
  - intros n Hn. split; [exact (Hsome n Hn)|].
    unfold initialsOf. rewrite length_firstn. apply Nat.le_min_l.
  - intros k Hk. rewrite Hsome by (destruct k; [lia|discriminate]).
    unfold initialsOf. rewrite split_spaces, flat_map_repeat_nil by reflexivity.
    exact Hempty.
Qed.

Lemma getInitials_cases_witness :
  getInitials toUpperCaseLatin1 (Some (u16 "   ")) = []
  /\ getInitials toUpperCaseLatin1 (Some (u16 "ada king lovelace")) = u16 "AK".
Proof.
  destruct (getInitials_cases toUpperCaseLatin1 eq_refl) as (_ & _ & Hn & Hsp).
  split.
  - apply (Hsp 3). repeat constructor.
  - destruct (Hn (u16 "ada king lovelace")) as [E _]; [discriminate|].
    exact (eq_trans E eq_refl).
Defined.

(** C10, as it is worded, fails: the upper-casing comes after the cut to
    two code units, and sharp s becomes [SS], so the name made of two
    words that are each a sharp s has four code units of initials. *)
Lemma getInitials_exceeds_two :
  getInitials toUpperCaseLatin1 (Some [223; 32; 223]%N) = u16 "SSSS"
  /\ List.length (getInitials toUpperCaseLatin1 (Some [223; 32; 223]%N)) = 4
  /\ ~ List.length (getInitials toUpperCaseLatin1 (Some [223; 32; 223]%N)) <= 2.
Proof.
  split; [reflexivity|]. split; [reflexivity|].
  vm_compute. lia.
Qed.

End CardFacts.

(** ** The two card URLs *)

Module QRFacts.

Import Card QR JSFacts.

(** The fixed base URL splits at its one [://] only. *)
Lemma base_url_split (p h : jsstring) :
  p ++ u16 "://" ++ h = u16 "https://bizbuz.planetnine.app" ->
  p = u16 "https" /\ h = u16 "bizbuz.planetnine.app".
Proof.
  intros H. vm_compute in H. vm_compute.
  do 30 (destruct p as [|? p];
         [ try (injection H as; discriminate);
           try (injection H as <-; split; reflexivity);
           try discriminate H
         | cbn [app] in H; try discriminate H; injection H as -> H ]).
Qed.

(** C5. The card page hands the QR library the fixed URL
    https://bizbuz.planetnine.app/card/<identifier>, whatever the request
    was (the page is built from the profile and the identifier alone), and
    embeds what the library returns as the image source; the /qr endpoint
    hands it <scheme>://<host>/card/<identifier> of the request. The two
    URLs are the same only when the request's scheme is https and its host
    is bizbuz.planetnine.app, and differ otherwise. *)
Theorem card_urls toUpperCase toDataURL toBuffer profile req identifier :
  generateBusinessCardPage toUpperCase toDataURL profile identifier
  = (qrDataUrl <- toDataURL (u16 "https://bizbuz.planetnine.app/card/" ++ identifier)
                    pageQROptions ;;
     Ok (List.concat (pageParts toUpperCase profile identifier qrDataUrl)))
  /\ (forall qrDataUrl,
        nth 24 (pageParts toUpperCase profile identifier qrDataUrl) []
        = seg_location_to_qr
        /\ nth 25 (pageParts toUpperCase profile identifier qrDataUrl) []
           = qrDataUrl)
  /\ qrBuffer toBuffer req identifier
     = toBuffer (protocol req ++ u16 "://" ++ interpolate (host req)
                   ++ u16 "/card/" ++ identifier)
         endpointQROptions
  /\ (endpointCardUrl req identifier = pageCardUrl identifier
      <-> protocol req = u16 "https"
          /\ host req = Some (u16 "bizbuz.planetnine.app")).
Proof.
  split; [reflexivity|]. split; [intros qrDataUrl; split; reflexivity|].
  split; [reflexivity|].
  unfold endpointCardUrl, pageCardUrl. split.
  - intros H.
    change (u16 "https://bizbuz.planetnine.app/card/")
      with (u16 "https://bizbuz.planetnine.app" ++ u16 "/card/") in H.
    rewrite <- app_assoc in H.
    replace (protocol req ++ u16 "://" ++ interpolate (host req)
             ++ u16 "/card/" ++ identifier)
      with ((protocol req ++ u16 "://" ++ interpolate (host req))
            ++ u16 "/card/" ++ identifier) in H
      by (rewrite <- !app_assoc; reflexivity).
    apply app_inv_tail in H. apply base_url_split in H as [Hp Hh].
    split; [exact Hp|].
    destruct (host req) as [h|]; cbn [interpolate] in Hh; [now subst|].
    vm_compute in Hh. discriminate.
  - intros [-> ->]. reflexivity.
Qed.

End QRFacts.

(** * Further properties *)

(** ** Profile resolver and the not-found replies *)

Module ResolverMore.

Import Resolver Handlers JSFacts.

Lemma fetchProfile_fallback base fetch identifier :
  fallsBack (fetch (profileUrl base identifier)) ->
  fetchProfile base fetch identifier
  = if streq identifier (u16 "demo") then getDemoProfile else VNull.
Proof.
  unfold fetchProfile, fetchProfile_try.
  intros [[[e He]|(r & Hr & Hok)]|(r & Hr & Hok & [[e He]|[Hnull|Hnull]])];
    rewrite ?He, ?Hr; cbn [bind]; rewrite ?Hok, ?He, ?Hnull; reflexivity.
Qed.

(** X1. A 2xx response whose body does not parse, or parses to [null],
    is handled like a failed request: the demo profile for [demo], [null]
    for any other identifier. *)
Theorem fetchProfile_unusable_body base fetch identifier response :
  fetch (profileUrl base identifier) = Ok response ->
  ok response = true ->
  (exists e, json response = Throw e) \/ json response = Ok VNull ->
  (identifier = u16 "demo" ->
     fetchProfile base fetch identifier = getDemoProfile)
  /\ (identifier <> u16 "demo" ->
     fetchProfile base fetch identifier = VNull).
Proof.
  intros Hf Hok Hbody.
  assert (E := fetchProfile_fallback base fetch identifier).
  rewrite Hf in E.
  assert (Hfb : fallsBack (Ok response)).
  { right. exists response. split; [reflexivity|]. split; [exact Hok|].
    destruct Hbody as [He|Hnull]; [left; exact He|right; left; exact Hnull]. }
  specialize (E Hfb).
  split.
  - intros ->. exact E.
  - intros Hne. now rewrite E, (streq_neq _ _ Hne).
Qed.

Lemma fetchProfile_unusable_body_witness :
  fetchProfile (u16 "http://localhost:3012")
    (fun _ => Ok {| ok := true; json := Ok VNull |}) (u16 "demo")
  = getDemoProfile
  /\ fetchProfile (u16 "http://localhost:3012")
       (fun _ => Ok {| ok := true; json := Throw SyntaxError |}) (u16 "nobody")
     = VNull.
Proof.
  split.
  - apply (fetchProfile_unusable_body (u16 "http://localhost:3012")
             (fun _ => Ok {| ok := true; json := Ok VNull |}) (u16 "demo")
             {| ok := true; json := Ok VNull |} eq_refl eq_refl).
    + right. reflexivity.
    + reflexivity.
  - apply (fetchProfile_unusable_body (u16 "http://localhost:3012")
             (fun _ => Ok {| ok := true; json := Throw SyntaxError |})
             (u16 "nobody")
             {| ok := true; json := Throw SyntaxError |} eq_refl eq_refl).
    + left. exists SyntaxError. reflexivity.
    + vm_compute. discriminate.
Defined.

(** X2. A 2xx response whose body is an array or a primitive other than
    [null] resolves to that body itself, for every identifier: a body
    that is [false], [0] or the empty string makes the result falsy, and
    the demo fallback does not apply. *)
Theorem fetchProfile_plain_body base fetch identifier response data :
  fetch (profileUrl base identifier) = Ok response ->
  ok response = true ->
  json response = Ok data ->
  plainBody data = true ->
  fetchProfile base fetch identifier = data
  /\ truthy (fetchProfile base fetch identifier) = truthy data.
Proof.
  intros Hf Hok Hj Hplain.
  assert (E : fetchProfile base fetch identifier = data).
  { unfold fetchProfile, fetchProfile_try. rewrite Hf. cbn [bind].
    rewrite Hok, Hj. destruct data; try discriminate Hplain; reflexivity. }
  split; [exact E|now rewrite E].
Qed.

Lemma fetchProfile_plain_body_witness :
  fetchProfile (u16 "http://localhost:3012")
    (fun _ => Ok {| ok := true; json := Ok (VStr []) |}) (u16 "demo")
  = VStr []
  /\ truthy (fetchProfile (u16 "http://localhost:3012")
               (fun _ => Ok {| ok := true; json := Ok (VStr []) |}) (u16 "demo"))
     = false.
Proof.
  exact (fetchProfile_plain_body (u16 "http://localhost:3012")
           (fun _ => Ok {| ok := true; json := Ok (VStr []) |}) (u16 "demo")
           {| ok := true; json := Ok (VStr []) |} (VStr [])
           eq_refl eq_refl eq_refl eq_refl).
Defined.

Lemma fetchProfile_null_iff_aux base fetch identifier :
  identifier <> u16 "demo" ->
  fallsBack (fetch (profileUrl base identifier)) ->
  fetchProfile base fetch identifier = VNull.
Proof.
  intros Hne Hfb. now rewrite (fetchProfile_fallback _ _ _ Hfb), (streq_neq _ _ Hne).
Qed.

(** X3. The resolver returns [null] exactly when the identifier is not
    [demo] and it is left with its fallback (failed request, non-2xx
    response, body that does not parse or has no properties to read); for
    [demo] it never returns [null]. *)
Theorem fetchProfile_null_iff base fetch identifier :
  fetchProfile base fetch identifier = VNull
  <-> identifier <> u16 "demo" /\ fallsBack (fetch (profileUrl base identifier)).
Proof.
  split.
  - intros Hnull.
    assert (Hfb : fallsBack (fetch (profileUrl base identifier))).
    { unfold fetchProfile, fetchProfile_try in Hnull. unfold fallsBack, upstreamFails.
      destruct (fetch (profileUrl base identifier)) as [r|e] eqn:Hf;
        [|left; left; exists e; reflexivity].
      cbn [bind] in Hnull. destruct (ok r) eqn:Hok;
        [|left; right; exists r; split; [reflexivity|exact Hok]].
      right. exists r. split; [reflexivity|]. split; [exact Hok|].
      destruct (json r) as [data|e] eqn:Hj; [|left; exists e; reflexivity].
      right. cbn [bind] in Hnull.
      destruct data as [| |b|f|s|elems|props];
        [right; reflexivity|left; reflexivity| | | | |];
        cbn [getProp bind truthy] in Hnull; try discriminate Hnull.
      destruct (lookup (u16 "profile") props) as [v|]; [|discriminate Hnull].
      destruct (truthy v) eqn:Hv; [|discriminate Hnull].
      subst v. discriminate Hv. }
    split; [|exact Hfb].
    intros ->. rewrite (fetchProfile_fallback _ _ _ Hfb) in Hnull.
    discriminate Hnull.
  - intros [Hne Hfb]. now rewrite (fetchProfile_fallback _ _ _ Hfb), (streq_neq _ _ Hne).
Qed.

(** X4. When the request to the profile service fails and the
    identifier is not [demo], the three profile routes answer 404: the
    JSON routes with the body holding the error [Profile not found], the
    card route with the error page for that message; the QR library is
    not reached. *)
Theorem not_found_replies base fetch toUpperCase toDataURL identifier :
  upstreamFails (fetch (profileUrl base identifier)) ->
  identifier <> u16 "demo" ->
  apiProfileHandler base fetch identifier
  = {| status := 404; headers := [];
       body := SendJson (VObj [(u16 "error", VStr (u16 "Profile not found"))]) |}
  /\ vcardHandler base fetch identifier
     = Some {| status := 404; headers := [];
               body := SendJson (VObj [(u16 "error",
                                        VStr (u16 "Profile not found"))]) |}
  /\ (forall messageOf,
        cardHandler base fetch toUpperCase toDataURL messageOf identifier
        = Some {| status := 404; headers := [];
                  body := SendText (err_before_message
                                    ++ u16 "Profile not found"
                                    ++ err_after_message) |}).
Proof.
  intros Hfail Hne.
  assert (E : fetchProfile base fetch identifier = VNull).
  { apply fetchProfile_null_iff_aux; [exact Hne|left; exact Hfail]. }
  unfold apiProfileHandler, vcardHandler, cardHandler. rewrite E. cbn [truthy negb].
  repeat split.
Qed.

Lemma not_found_replies_witness :
  apiProfileHandler (u16 "http://localhost:3012") (fun _ => Throw NetworkError)
    (u16 "unknown-id")
  = {| status := 404; headers := [];
       body := SendJson (VObj [(u16 "error", VStr (u16 "Profile not found"))]) |}.
Proof.
  refine (proj1 (not_found_replies (u16 "http://localhost:3012")
                   (fun _ => Throw NetworkError) (fun s => s)
                   (fun _ _ => Throw LibraryError) (u16 "unknown-id") _ _)).
  - left. exists NetworkError. reflexivity.
  - vm_compute. discriminate.
Defined.

End ResolverMore.

(** ** vCard renderer: every field *)

Module VCardMore.

Import VCard Handlers JSFacts VCardFacts.

Lemma join_app sep (front back : list jsstring) :
  front <> [] -> back <> [] ->
  join sep (front ++ back) = join sep front ++ sep ++ join sep back.
Proof.
  intros Hf Hb. induction front as [|w front IH]; [contradiction|].
  destruct front as [|w' front].
  - cbn [app]. now rewrite join_lines_cons.
  - change ((w :: w' :: front) ++ back) with (w :: (w' :: front) ++ back).
    rewrite join_lines_cons by discriminate.
    rewrite IH by discriminate.
    rewrite (join_lines_cons sep w (w' :: front)) by discriminate.
    now rewrite <- !app_assoc.
Qed.

Lemma optLine_length field line : List.length (optLine field line) <= 1.
Proof. unfold optLine. destruct (present field); simpl; lia. Qed.

Lemma fieldLines_length profile : List.length (fieldLines profile) <= 10.
Proof.
  unfold fieldLines. rewrite !length_app.
  pose proof (optLine_length (title profile) (fun s => u16 "TITLE:" ++ s)).
  pose proof (optLine_length (company profile) (fun s => u16 "ORG:" ++ s)).
  pose proof (optLine_length (email profile)
                (fun s => u16 "EMAIL;TYPE=INTERNET:" ++ s)).
  pose proof (optLine_length (phone profile) (fun s => u16 "TEL;TYPE=CELL:" ++ s)).
  pose proof (optLine_length (website profile) (fun s => u16 "URL:" ++ s)).
  pose proof (optLine_length (location profile)
                (fun s => u16 "ADR;TYPE=WORK:;;" ++ s ++ u16 ";;;;")).
  pose proof (optLine_length (bio profile) (fun s => u16 "NOTE:" ++ s)).
  destruct (social profile) as [handles|]; [|cbn [List.length]; lia].
  rewrite !length_app.
  pose proof (optLine_length (github handles)
                (fun s => u16 "URL;TYPE=GitHub:https://github.com/" ++ s)).
  pose proof (optLine_length (twitter handles)
                (fun s => u16 "URL;TYPE=Twitter:https://twitter.com/" ++ s)).
  pose proof (optLine_length (linkedin handles)
                (fun s => u16 "URL;TYPE=LinkedIn:https://linkedin.com/in/" ++ s)).
  lia.
Qed.

(** The array of lines around its middle. *)
Lemma vcardLines_middle profile :
  exists middle,
    vcardLines profile
    = [u16 "BEGIN:VCARD"; u16 "VERSION:3.0"] ++ middle ++ [u16 "END:VCARD"]
    /\ List.length middle <= 12
    /\ incl (fieldLines profile) middle.
Proof.
  pose proof (vcardLines_blocks profile) as E.
  pose proof (fieldLines_length profile) as Hlen.
  destruct (present (name profile)) as [n|].
  - eexists (_ :: _ :: fieldLines profile). split; [|split].
    + rewrite E. reflexivity.
    + simpl. lia.
    + intros x Hx. right. right. exact Hx.
  - exists (fieldLines profile). split; [|split].
    + rewrite E. reflexivity.
    + lia.
    + apply incl_refl.
Qed.

(** X20. The array of lines is, in this order: BEGIN:VCARD and
    VERSION:3.0; when a name is present, FN:<name> and the N line
    (N:<tokens after the first>;<first token>;;; with two tokens or more
    between spaces, N:;<name>;;; otherwise); one line for each present
    field among title, company, e-mail, phone, website, location and bio,
    with its prefix; one line for each present handle among github,
    twitter and linkedin when [social] is there; END:VCARD. A field that
    is absent or empty gives no line. *)
Theorem vcard_lines_in_order profile :
  vcardLines profile
  = [u16 "BEGIN:VCARD"; u16 "VERSION:3.0"]
    ++ match present (name profile) with
       | Some n =>
           [u16 "FN:" ++ n;
            if Nat.leb 2 (List.length (split space n))
            then u16 "N:" ++ join [space] (tl (split space n)) ++ u16 ";"
                   ++ hd [] (split space n) ++ u16 ";;;"
            else u16 "N:;" ++ n ++ u16 ";;;"]
       | None => []
       end
    ++ match present (title profile) with
       | Some s => [u16 "TITLE:" ++ s] | None => [] end
    ++ match present (company profile) with
       | Some s => [u16 "ORG:" ++ s] | None => [] end
    ++ match present (email profile) with
       | Some s => [u16 "EMAIL;TYPE=INTERNET:" ++ s] | None => [] end
    ++ match present (phone profile) with
       | Some s => [u16 "TEL;TYPE=CELL:" ++ s] | None => [] end
    ++ match present (website profile) with
       | Some s => [u16 "URL:" ++ s] | None => [] end
    ++ match present (location profile) with
       | Some s => [u16 "ADR;TYPE=WORK:;;" ++ s ++ u16 ";;;;"] | None => [] end
    ++ match present (bio profile) with
       | Some s => [u16 "NOTE:" ++ s] | None => [] end
    ++ match social profile with
       | Some handles =>
           match present (github handles) with
           | Some s => [u16 "URL;TYPE=GitHub:https://github.com/" ++ s]
           | None => []
           end
           ++ match present (twitter handles) with
              | Some s => [u16 "URL;TYPE=Twitter:https://twitter.com/" ++ s]
              | None => []
              end
           ++ match present (linkedin handles) with
              | Some s => [u16 "URL;TYPE=LinkedIn:https://linkedin.com/in/" ++ s]
              | None => []
              end
       | None => []
       end
    ++ [u16 "END:VCARD"]
  /\ (forall n first more,
        present (name profile) = Some n ->
        n = first ++ space :: more -> ~ In space first ->
        nth 3 (vcardLines profile) []
        = u16 "N:" ++ more ++ u16 ";" ++ first ++ u16 ";;;")
  /\ (forall n,
        present (name profile) = Some n -> ~ In space n ->
        nth 3 (vcardLines profile) [] = u16 "N:;" ++ n ++ u16 ";;;").
Proof.
  pose proof (vcardLines_blocks profile) as E.
  unfold fieldLines, optLine in E. rewrite <- !app_assoc in E.
  split; [exact E|]. rewrite E. clear E.
  split.
  - intros n first more Hn Hsplit Hfirst. rewrite Hn. cbn [app nth].
    exact (proj1 (name_line_cases n) first more Hsplit Hfirst).
  - intros n Hn Hno. rewrite Hn. cbn [app nth].
    exact (proj2 (name_line_cases n) Hno).
Qed.

Lemma nothingPresent_fieldLines profile :
  nothingPresent profile -> fieldLines profile = [].
Proof.
  intros (_ & Ht & Hc & He & Hp & Hw & Hl & Hb & Hs).
  unfold fieldLines, optLine. rewrite Ht, Hc, He, Hp, Hw, Hl, Hb. simpl.
  destruct (social profile) as [handles|]; [|reflexivity].
  destruct Hs as (Hg & Htw & Hli). now rewrite Hg, Htw, Hli.
Qed.

(** X6. A profile with no field present (each one absent or empty, the
    handles too) gives the three-line vCard BEGIN:VCARD, VERSION:3.0,
    END:VCARD, and the download is named contact.vcf. *)
Theorem vcard_of_empty_profile profile :
  nothingPresent profile ->
  generateVCard profile
  = u16 "BEGIN:VCARD" ++ CRLF ++ u16 "VERSION:3.0" ++ CRLF ++ u16 "END:VCARD"
  /\ vcardFilename profile = u16 "contact.vcf".
Proof.
  intros Hnone. pose proof (nothingPresent_fieldLines _ Hnone) as Hf.
  destruct Hnone as (Hn & _). split.
  - unfold generateVCard. rewrite vcardLines_blocks, Hn, Hf. reflexivity.
  - unfold vcardFilename, orElse. rewrite Hn. reflexivity.
Qed.

Lemma vcard_of_empty_profile_witness :
  generateVCard {| name := Some []; title := None; company := Some [];
                   email := None; phone := None; website := None;
                   location := None; bio := None;
                   social := Some {| github := Some []; twitter := None;
                                     linkedin := None |} |}
  = u16 "BEGIN:VCARD" ++ CRLF ++ u16 "VERSION:3.0" ++ CRLF ++ u16 "END:VCARD".
Proof.
  apply (vcard_of_empty_profile
           {| name := Some []; title := None; company := Some [];
              email := None; phone := None; website := None;
              location := None; bio := None;
              social := Some {| github := Some []; twitter := None;
                                linkedin := None |} |}).
  repeat split.
Defined.

(** A line of the middle of the array stands between two CRLF. *)
Lemma middle_line_occurs profile line :
  In line (fieldLines profile) ->
  occursIn (CRLF ++ line ++ CRLF) (generateVCard profile).
Proof.
  intros Hin. destruct (vcardLines_middle profile) as (middle & E & _ & Hincl).
  apply Hincl in Hin. apply in_split in Hin as (m1 & m2 & ->).
  unfold generateVCard. rewrite E.
  exists (join CRLF ([u16 "BEGIN:VCARD"; u16 "VERSION:3.0"] ++ m1)),
         (join CRLF (m2 ++ [u16 "END:VCARD"])).
  replace ([u16 "BEGIN:VCARD"; u16 "VERSION:3.0"] ++ (m1 ++ line :: m2)
           ++ [u16 "END:VCARD"])
    with (([u16 "BEGIN:VCARD"; u16 "VERSION:3.0"] ++ m1)
          ++ (line :: (m2 ++ [u16 "END:VCARD"])))
    by (rewrite <- !app_assoc; reflexivity).
  rewrite join_app; [|discriminate|discriminate].
  rewrite join_lines_cons.
  - now rewrite <- !app_assoc.
  - intros H. apply app_eq_nil in H as [_ H]. discriminate.
Qed.

Lemma optLine_in field line x :
  (exists text, present field = Some text /\ x = line text) ->
  In x (optLine field line).
Proof. intros (text & H & ->). unfold optLine. rewrite H. now left. Qed.

(** X7. The text of every present field after the name reaches the
    vCard as it is, with no escaping, on a line of its own between two
    CRLF: TITLE:, ORG:, EMAIL;TYPE=INTERNET:, TEL;TYPE=CELL:, URL:,
    ADR;TYPE=WORK:;;...;;;;, NOTE:, and the three handle URLs when
    [social] is there. *)
Theorem vcard_field_lines_verbatim profile :
  (forall text, present (title profile) = Some text ->
     occursIn (CRLF ++ (u16 "TITLE:" ++ text) ++ CRLF) (generateVCard profile))
  /\ (forall text, present (company profile) = Some text ->
     occursIn (CRLF ++ (u16 "ORG:" ++ text) ++ CRLF) (generateVCard profile))
  /\ (forall text, present (email profile) = Some text ->
     occursIn (CRLF ++ (u16 "EMAIL;TYPE=INTERNET:" ++ text) ++ CRLF)
       (generateVCard profile))
  /\ (forall text, present (phone profile) = Some text ->
     occursIn (CRLF ++ (u16 "TEL;TYPE=CELL:" ++ text) ++ CRLF)
       (generateVCard profile))
  /\ (forall text, present (website profile) = Some text ->
     occursIn (CRLF ++ (u16 "URL:" ++ text) ++ CRLF) (generateVCard profile))
  /\ (forall text, present (location profile) = Some text ->
     occursIn (CRLF ++ (u16 "ADR;TYPE=WORK:;;" ++ text ++ u16 ";;;;") ++ CRLF)
       (generateVCard profile))
  /\ (forall text, present (bio profile) = Some text ->
     occursIn (CRLF ++ (u16 "NOTE:" ++ text) ++ CRLF) (generateVCard profile))
  /\ (forall handles text, social profile = Some handles ->
     present (github handles) = Some text ->
     occursIn (CRLF ++ (u16 "URL;TYPE=GitHub:https://github.com/" ++ text) ++ CRLF)
       (generateVCard profile))
  /\ (forall handles text, social profile = Some handles ->
     present (twitter handles) = Some text ->
     occursIn (CRLF ++ (u16 "URL;TYPE=Twitter:https://twitter.com/" ++ text) ++ CRLF)
       (generateVCard profile))
  /\ (forall handles text, social profile = Some handles ->
     present (linkedin handles) = Some text ->
     occursIn (CRLF ++ (u16 "URL;TYPE=LinkedIn:https://linkedin.com/in/" ++ text)
               ++ CRLF)
       (generateVCard profile)).
Proof.
  repeat split; intros; apply middle_line_occurs; unfold fieldLines;
    repeat match goal with
           | Hs : social profile = Some _ |- _ => rewrite Hs; clear Hs
           end;
    repeat (apply in_or_app;
            first [ left; apply optLine_in; eexists; split;
                    [eassumption|reflexivity]
                  | right ]);
    apply optLine_in; eexists; split; [eassumption|reflexivity].
Qed.

Lemma splitCRLF_other c rest :
  c <> 13%N ->
  splitCRLF (c :: rest)
  = match splitCRLF rest with
    | w :: ws => (c :: w) :: ws
    | [] => [[c]]
    end.
Proof.
  intros Hc. cbn [splitCRLF].
  destruct (N.eqb_spec c 13) as [->|_]; [contradiction|reflexivity].
Qed.

Lemma splitCRLF_line w s :
  ~ In 13%N w -> splitCRLF (w ++ CRLF ++ s) = w :: splitCRLF s.
Proof.
  induction w as [|c w IH]; intros Hw; [reflexivity|].
  cbn [app]. rewrite splitCRLF_other by (intros ->; apply Hw; now left).
  rewrite IH; [reflexivity|]. intros Hin; apply Hw; now right.
Qed.

Lemma splitCRLF_single w : ~ In 13%N w -> splitCRLF w = [w].
Proof.
  induction w as [|c w IH]; intros Hw; [reflexivity|].
  rewrite splitCRLF_other by (intros ->; apply Hw; now left).
  rewrite IH; [reflexivity|]. intros Hin; apply Hw; now right.
Qed.

(** Lines without a carriage return come back from their CRLF-joined text. *)
Lemma splitCRLF_join lines :
  lines <> [] -> Forall (fun line => ~ In 13%N line) lines ->
  splitCRLF (join CRLF lines) = lines.
Proof.
  induction lines as [|w lines IH]; intros Hne Hall; [contradiction|].
  inversion Hall as [|? ? Hw Hrest]; subst.
  destruct lines as [|w' lines].
  - cbn [join]. now apply splitCRLF_single.
  - rewrite join_lines_cons by discriminate.
    rewrite splitCRLF_line by exact Hw.
    rewrite IH; [reflexivity|discriminate|exact Hrest].
Qed.

Lemma first_separator sep (s : jsstring) :
  In sep s -> exists first more, s = first ++ sep :: more /\ ~ In sep first.
Proof.
  induction s as [|c s IH]; intros Hin; [contradiction|].
  destruct (N.eq_dec c sep) as [->|Hne].
  - exists [], s. split; [reflexivity|intros []].
  - destruct Hin as [Hc|Hin]; [contradiction|].
    destruct (IH Hin) as (first & more & -> & Hfirst).
    exists (c :: first), more. split; [reflexivity|].
    intros [H|H]; [contradiction|now apply Hfirst].
Qed.

Ltac not_in_literal :=
  let H := fresh in
  intros H; vm_compute in H;
  repeat (destruct H as [H|H]; [discriminate H|]); exact H.

Lemma optLine_no_cr field line :
  (forall text, present field = Some text -> ~ In 13%N (line text)) ->
  Forall (fun l => ~ In 13%N l) (optLine field line).
Proof.
  intros H. unfold optLine. destruct (present field) as [text|] eqn:E.
  - constructor; [now apply H|constructor].
  - constructor.
Qed.

Lemma name_lines_no_cr (n : jsstring) :
  ~ In 13%N n ->
  ~ In 13%N (if Nat.leb 2 (List.length (split space n))
             then u16 "N:" ++ join [space] (tl (split space n)) ++ u16 ";"
                    ++ hd [] (split space n) ++ u16 ";;;"
             else u16 "N:;" ++ n ++ u16 ";;;").
Proof.
  intros Hn. destruct (name_line_cases n) as [Hsplit Hwhole]. cbv zeta in *.
  destruct (in_dec N.eq_dec space n) as [Hsp|Hsp].
  - destruct (first_separator space n Hsp) as (first & more & E & Hfirst).
    pose proof (Hsplit first more E Hfirst) as R.
    match type of R with ?lhs = _ => change (~ In 13%N lhs) end.
    rewrite R. subst n.
    intros Hin. repeat (apply in_app_or in Hin as [Hin|Hin]).
    + revert Hin. not_in_literal.
    + apply Hn. apply in_or_app. right. now right.
    + revert Hin. not_in_literal.
    + apply Hn. apply in_or_app. now left.
    + revert Hin. not_in_literal.
  - pose proof (Hwhole Hsp) as R.
    match type of R with ?lhs = _ => change (~ In 13%N lhs) end.
    rewrite R.
    intros Hin. repeat (apply in_app_or in Hin as [Hin|Hin]).
    + revert Hin. not_in_literal.
    + now apply Hn.
    + revert Hin. not_in_literal.
Qed.

Lemma vcardLines_no_cr profile :
  singleLineFields profile ->
  Forall (fun line => ~ In 13%N line) (vcardLines profile).
Proof.
  intros (Hn & Ht & Hc & He & Hp & Hw & Hl & Hb & Hs).
  rewrite vcardLines_blocks. rewrite !Forall_app.
  split; [|split; [|split]].
  - constructor; [not_in_literal|constructor; [not_in_literal|constructor]].
  - destruct (present (name profile)) as [n|] eqn:En; [|constructor].
    specialize (Hn n En). constructor; [|constructor; [|constructor]].
    + intros Hin. apply in_app_or in Hin as [Hin|Hin]; [|now apply Hn].
      revert Hin. not_in_literal.
    + now apply name_lines_no_cr.
  - unfold fieldLines. rewrite !Forall_app.
    repeat match goal with |- _ /\ _ => split end.
    + apply optLine_no_cr. intros text Htext Hin.
      apply in_app_or in Hin as [Hin|Hin]; [revert Hin; not_in_literal|].
      revert Hin. now apply Ht.
    + apply optLine_no_cr. intros text Htext Hin.
      apply in_app_or in Hin as [Hin|Hin]; [revert Hin; not_in_literal|].
      revert Hin. now apply Hc.
    + apply optLine_no_cr. intros text Htext Hin.
      apply in_app_or in Hin as [Hin|Hin]; [revert Hin; not_in_literal|].
      revert Hin. now apply He.
    + apply optLine_no_cr. intros text Htext Hin.
      apply in_app_or in Hin as [Hin|Hin]; [revert Hin; not_in_literal|].
      revert Hin. now apply Hp.
    + apply optLine_no_cr. intros text Htext Hin.
      apply in_app_or in Hin as [Hin|Hin]; [revert Hin; not_in_literal|].
      revert Hin. now apply Hw.
    + apply optLine_no_cr. intros text Htext Hin.
      apply in_app_or in Hin as [Hin|Hin]; [revert Hin; not_in_literal|].
      apply in_app_or in Hin as [Hin|Hin]; [|revert Hin; not_in_literal].
      revert Hin. now apply Hl.
    + apply optLine_no_cr. intros text Htext Hin.
      apply in_app_or in Hin as [Hin|Hin]; [revert Hin; not_in_literal|].
      revert Hin. now apply Hb.
    + destruct (social profile) as [handles|]; [|constructor].
      destruct Hs as (Hg & Htw & Hli). rewrite !Forall_app.
      split; [|split]; apply optLine_no_cr; intros text Htext Hin;
        (apply in_app_or in Hin as [Hin|Hin]; [revert Hin; not_in_literal|]);
        revert Hin.
      * now apply Hg.
      * now apply Htw.
      * now apply Hli.
  - constructor; [not_in_literal|constructor].
Qed.

(** X8. When no present field holds a carriage return, cutting the
    vCard at every CRLF gives back exactly the array of lines the
    renderer built: one line per pushed line, none split and none
    merged. *)
Theorem vcard_lines_round_trip profile :
  singleLineFields profile ->
  splitCRLF (generateVCard profile) = vcardLines profile.
Proof.
  intros Hsingle. unfold generateVCard. apply splitCRLF_join.
  - rewrite vcardLines_blocks. discriminate.
  - now apply vcardLines_no_cr.
Qed.

Lemma vcard_lines_round_trip_witness :
  splitCRLF (generateVCard (nameOnly (u16 "Ada Lovelace")))
  = vcardLines (nameOnly (u16 "Ada Lovelace")).
Proof.
  apply (vcard_lines_round_trip (nameOnly (u16 "Ada Lovelace"))).
  repeat split; try (intros text H; discriminate H).
  intros text H. injection H as <-. not_in_literal.
Defined.

Lemma sanitized_cases c : filenameChar (sanitized c) = true \/ sanitized c = 95%N.
Proof.
  unfold sanitized. destruct (filenameChar c) eqn:E; [left; exact E|right; reflexivity].
Qed.

Lemma vcardFilename_map profile :
  vcardFilename profile
  = map sanitized (orElse (name profile) (u16 "contact") ++ u16 ".vcf").
Proof.
  unfold vcardFilename. change (u16 "_") with [95%N]. apply replaceOutside_map.
Qed.

Lemma countIf_app test s t : countIf test (s ++ t) = countIf test s + countIf test t.
Proof. unfold countIf. now rewrite filter_app, length_app. Qed.

Lemma countIf_none test s :
  (forall c, In c s -> test c = false) -> countIf test s = 0.
Proof.
  unfold countIf. induction s as [|c s IH]; intros H; [reflexivity|].
  cbn [filter]. rewrite (H c) by now left.
  apply IH. intros x Hx. apply H. now right.
Qed.

(** X9. Whatever the name holds, the download file name is made of
    letters, digits, dots, hyphens and underscores only, it is four code
    units longer than the name (or than [contact]), and the
    Content-Disposition header built from it holds exactly the two double
    quotes around the file name and no line break. *)
Theorem vcard_download_header_safe profile :
  Forall (fun c => filenameChar c = true \/ c = 95%N) (vcardFilename profile)
  /\ List.length (vcardFilename profile)
     = List.length (orElse (name profile) (u16 "contact")) + 4
  /\ headers (vcardReply profile)
     = [(u16 "Content-Type", u16 "text/vcard");
        (u16 "Content-Disposition",
         u16 "attachment; filename=" ++ dquote ++ vcardFilename profile ++ dquote)]
  /\ countIf (N.eqb 34)
       (u16 "attachment; filename=" ++ dquote ++ vcardFilename profile ++ dquote)
     = 2
  /\ ~ In 13%N (u16 "attachment; filename=" ++ dquote ++ vcardFilename profile
                ++ dquote)
  /\ ~ In 10%N (u16 "attachment; filename=" ++ dquote ++ vcardFilename profile
                ++ dquote).
Proof.
  assert (Hall : Forall (fun c => filenameChar c = true \/ c = 95%N)
                   (vcardFilename profile)).
  { rewrite vcardFilename_map. apply Forall_forall. intros c Hc.
    apply in_map_iff in Hc as (x & <- & _). apply sanitized_cases. }
  assert (Hnot : forall c, filenameChar c = false -> c <> 95%N ->
                 ~ In c (vcardFilename profile)).
  { intros c Hc Hu Hin. rewrite Forall_forall in Hall.
    destruct (Hall c Hin) as [H|H]; congruence. }
  split; [exact Hall|]. split.
  { rewrite vcardFilename_map, length_map, length_app. reflexivity. }
  split; [reflexivity|]. split; [|split].
  - rewrite !countIf_app.
    rewrite (countIf_none _ (vcardFilename profile)).
    + reflexivity.
    + intros c Hc. destruct (N.eqb_spec 34 c) as [<-|_]; [|reflexivity].
      exfalso. revert Hc. apply Hnot; [reflexivity|discriminate].
  - intros Hin. repeat (apply in_app_or in Hin as [Hin|Hin]).
    + revert Hin. not_in_literal.
    + revert Hin. not_in_literal.
    + revert Hin. apply Hnot; [reflexivity|discriminate].
    + revert Hin. not_in_literal.
  - intros Hin. repeat (apply in_app_or in Hin as [Hin|Hin]).
    + revert Hin. not_in_literal.
    + revert Hin. not_in_literal.
    + revert Hin. apply Hnot; [reflexivity|discriminate].
    + revert Hin. not_in_literal.
Qed.

Lemma splitCRLF_not_nil s : splitCRLF s <> [].
Proof.
  destruct s as [|c rest]; [discriminate|]. cbn [splitCRLF].
  destruct (N.eqb c 13); [destruct rest as [|d rest']|].
  - destruct (splitCRLF []); discriminate.
  - destruct (N.eqb d 10); [discriminate|].
    destruct (splitCRLF (d :: rest')); discriminate.
  - destruct (splitCRLF rest); discriminate.
Qed.

(** Ahead of anything but a line feed, a code unit joins the first line
    of what follows. *)
Lemma splitCRLF_keeps c d rest :
  (c = 13%N -> d <> 10%N) ->
  splitCRLF (c :: d :: rest)
  = match splitCRLF (d :: rest) with
    | w :: ws => (c :: w) :: ws
    | [] => [[c]]
    end.
Proof.
  intros H. cbn [splitCRLF].
  destruct (N.eqb_spec c 13) as [Hc|_]; [|reflexivity].
  destruct (N.eqb_spec d 10) as [Hd|_]; [|reflexivity].
  now apply H in Hc.
Qed.

Lemma keep_app (c : code_unit) (front back : list jsstring) :
  front <> [] ->
  match front ++ back with
  | [] => [[c]]
  | w :: ws => (c :: w) :: ws
  end
  = match front with
    | [] => [[c]]
    | w :: ws => (c :: w) :: ws
    end ++ back.
Proof. destruct front; [contradiction|reflexivity]. Qed.

(** A CRLF ends a line wherever it stands: the lines of a text before
    it, then the lines of the text after it. *)
Lemma splitCRLF_app w :
  (forall s, splitCRLF (w ++ CRLF ++ s) = splitCRLF w ++ splitCRLF s)
  /\ (forall c s,
        splitCRLF ((c :: w) ++ CRLF ++ s) = splitCRLF (c :: w) ++ splitCRLF s).
Proof.
  induction w as [|d w [IH0 IH1]].
  - split; [reflexivity|]. intros c s. cbn [app].
    change (CRLF ++ s) with (13%N :: 10%N :: s).
    rewrite splitCRLF_keeps by discriminate.
    change (splitCRLF (13%N :: 10%N :: s)) with ([] :: splitCRLF s).
    destruct (N.eqb_spec c 13) as [->|Hc]; [reflexivity|].
    exact (eq_sym (f_equal (fun l => l ++ splitCRLF s) (splitCRLF_other c [] Hc))).
  - split; [exact (IH1 d)|]. intros c s.
    destruct (N.eq_dec c 13) as [->|Hc]; [destruct (N.eq_dec d 10) as [->|Hd]|].
    + change (splitCRLF ((13%N :: 10%N :: w) ++ CRLF ++ s))
        with ([] :: splitCRLF (w ++ CRLF ++ s)).
      rewrite IH0. reflexivity.
    + cbn [app]. rewrite !splitCRLF_keeps by (intros _; exact Hd).
      change (d :: w ++ CRLF ++ s) with ((d :: w) ++ CRLF ++ s).
      rewrite IH1. apply keep_app, splitCRLF_not_nil.
    + cbn [app]. rewrite !splitCRLF_keeps by (intros H; contradiction).
      change (d :: w ++ CRLF ++ s) with ((d :: w) ++ CRLF ++ s).
      rewrite IH1. apply keep_app, splitCRLF_not_nil.
Qed.

(** The text has a line at least for each line joined. *)
Lemma splitCRLF_join_length lines :
  lines <> [] ->
  List.length lines <= List.length (splitCRLF (join CRLF lines)).
Proof.
  induction lines as [|w lines IH]; intros Hne; [contradiction|].
  destruct lines as [|w' lines].
  - cbn [join List.length]. pose proof (splitCRLF_not_nil w).
    destruct (splitCRLF w); [contradiction|cbn [List.length]; lia].
  - rewrite join_lines_cons by discriminate.
    rewrite (proj1 (splitCRLF_app w)), length_app.
    pose proof (splitCRLF_not_nil w).
    specialize (IH ltac:(discriminate)).
    destruct (splitCRLF w); [contradiction|].
    cbn [List.length] in *. lia.
Qed.

(** X5. Whatever the profile, the renderer pushes between 3 and 15
    lines, BEGIN:VCARD first and END:VCARD last; the text begins with
    BEGIN:VCARD, CRLF, VERSION:3.0, CRLF and ends with CRLF, END:VCARD
    and nothing after it. Cut at every CRLF, the text has at least as
    many lines as were pushed, so 3 at least (a field that holds CRLF
    itself adds lines), and exactly as many, so 15 at most, when no
    present field holds a carriage return. *)
Theorem vcard_always_bracketed profile :
  3 <= List.length (vcardLines profile) <= 15
  /\ hd [] (vcardLines profile) = u16 "BEGIN:VCARD"
  /\ last (vcardLines profile) [] = u16 "END:VCARD"
  /\ (exists rest,
        generateVCard profile
        = u16 "BEGIN:VCARD" ++ CRLF ++ u16 "VERSION:3.0" ++ CRLF ++ rest)
  /\ (exists front,
        generateVCard profile = front ++ CRLF ++ u16 "END:VCARD")
  /\ List.length (vcardLines profile)
     <= List.length (splitCRLF (generateVCard profile))
  /\ (singleLineFields profile ->
      List.length (splitCRLF (generateVCard profile))
      = List.length (vcardLines profile)).
Proof.
  destruct (vcardLines_middle profile) as (middle & E & Hlen & _).
  assert (Hne : vcardLines profile <> []) by (rewrite E; discriminate).
  split; [|split; [|split; [|split; [|split; [|split]]]]].
  - rewrite E, !length_app. simpl. lia.
  - rewrite E. reflexivity.
  - rewrite E, app_assoc. apply last_last.
  - unfold generateVCard. rewrite E.
    exists (join CRLF (middle ++ [u16 "END:VCARD"])).
    cbn [app]. rewrite !join_lines_cons; try discriminate.
    + rewrite <- ?app_assoc. reflexivity.
    + intros H. apply app_eq_nil in H as [_ H]. discriminate.
  - unfold generateVCard. rewrite E.
    exists (join CRLF ([u16 "BEGIN:VCARD"; u16 "VERSION:3.0"] ++ middle)).
    rewrite app_assoc. apply join_app; [|discriminate].
    discriminate.
  - unfold generateVCard. now apply splitCRLF_join_length.
  - intros Hsingle. unfold generateVCard.
    rewrite splitCRLF_join; [reflexivity|exact Hne|].
    now apply vcardLines_no_cr.
Qed.

End VCardMore.

(** ** HTML escaping and the pages *)

Module PageMore.

Import Card QR Handlers JSFacts CardFacts VCardMore.

(** X10. The five replacements of [escapeHtml], done one after the
    other, amount to one pass that rewrites each code unit on its own:
    [&] to [&amp;], [<] to [&lt;], [>] to [&gt;], the double quote to
    [&quot;], the single quote to [&#039;], any other to itself. The [&]
    and [;] that a replacement brings in are not rewritten again, and
    escaping a concatenation is concatenating the escapes. *)
Theorem escapeHtml_one_pass s :
  escapeHtml s = flat_map escapeUnit s
  /\ (forall t, escapeHtml (s ++ t) = escapeHtml s ++ escapeHtml t).
Proof.
  split; [apply escapeHtml_units|]. intros t. apply escapeHtml_app.
Qed.

Lemma escapeUnit_length c :
  List.length (escapeUnit c)
  = 1 + (if N.eqb c 38 then 4 else 0) + (if N.eqb c 60 then 3 else 0)
    + (if N.eqb c 62 then 3 else 0) + (if N.eqb c 34 then 5 else 0)
    + (if N.eqb c 39 then 5 else 0).
Proof.
  unfold escapeUnit.
  destruct (N.eqb_spec c 38) as [->|?]; [reflexivity|].
  destruct (N.eqb_spec c 60) as [->|?]; [reflexivity|].
  destruct (N.eqb_spec c 62) as [->|?]; [reflexivity|].
  destruct (N.eqb_spec c 34) as [->|?]; [reflexivity|].
  destruct (N.eqb_spec c 39) as [->|?]; reflexivity.
Qed.

Lemma countIf_cons test c s :
  countIf test (c :: s) = (if test c then 1 else 0) + countIf test s.
Proof. unfold countIf. cbn [filter]. now destruct (test c). Qed.

Lemma escapeHtml_length s :
  List.length (escapeHtml s)
  = List.length s + 4 * countIf (N.eqb 38) s + 3 * countIf (N.eqb 60) s
    + 3 * countIf (N.eqb 62) s + 5 * countIf (N.eqb 34) s
    + 5 * countIf (N.eqb 39) s.
Proof.
  rewrite escapeHtml_units. induction s as [|c s IH]; [reflexivity|].
  cbn [flat_map]. rewrite length_app, IH, escapeUnit_length, !countIf_cons.
  rewrite !(N.eqb_sym _ c).
  destruct (N.eqb c 38), (N.eqb c 60), (N.eqb c 62), (N.eqb c 34), (N.eqb c 39);
    cbn [List.length]; lia.
Qed.

Lemma countIf_zero test s :
  countIf test s = 0 -> forall c, In c s -> test c = false.
Proof.
  induction s as [|x s IH]; intros H c Hc; [contradiction|].
  rewrite countIf_cons in H. destruct (test x) eqn:Hx; [discriminate H|].
  destruct Hc as [<-|Hc]; [exact Hx|]. now apply IH.
Qed.

Lemma escapeUnit_plain c : isSpecial c = false -> escapeUnit c = [c].
Proof.
  unfold isSpecial, isMarkup, escapeUnit.
  destruct (N.eqb c 38), (N.eqb c 60), (N.eqb c 62), (N.eqb c 34), (N.eqb c 39);
    intros H; try discriminate H; reflexivity.
Qed.

(** X11. Escaped text holds no [<], [>], double or single quote; it is
    longer than the text by 4 for each [&], 3 for each [<] and [>], 5 for
    each quote; and escaping leaves a text as it is exactly when the text
    holds none of the five. *)
Theorem escapeHtml_output s :
  (forall c, In c (escapeHtml s) -> isMarkup c = false)
  /\ List.length (escapeHtml s)
     = List.length s + 4 * countIf (N.eqb 38) s + 3 * countIf (N.eqb 60) s
       + 3 * countIf (N.eqb 62) s + 5 * countIf (N.eqb 34) s
       + 5 * countIf (N.eqb 39) s
  /\ (escapeHtml s = s <-> forall c, In c s -> isSpecial c = false).
Proof.
  split; [|split].
  - intros c Hc. apply escapeHtml_no_markup in Hc as (H1 & H2 & H3 & H4).
    unfold isMarkup.
    apply N.eqb_neq in H1, H2, H3, H4. now rewrite H1, H2, H3, H4.
  - apply escapeHtml_length.
  - split.
    + intros E c Hc. pose proof (escapeHtml_length s) as L. rewrite E in L.
      unfold isSpecial, isMarkup.
      assert (Z38 : countIf (N.eqb 38) s = 0) by lia.
      assert (Z60 : countIf (N.eqb 60) s = 0) by lia.
      assert (Z62 : countIf (N.eqb 62) s = 0) by lia.
      assert (Z34 : countIf (N.eqb 34) s = 0) by lia.
      assert (Z39 : countIf (N.eqb 39) s = 0) by lia.
      rewrite !(N.eqb_sym c).
      rewrite (countIf_zero _ _ Z38 c Hc), (countIf_zero _ _ Z60 c Hc),
        (countIf_zero _ _ Z62 c Hc), (countIf_zero _ _ Z34 c Hc),
        (countIf_zero _ _ Z39 c Hc). reflexivity.
    + intros Hplain. rewrite escapeHtml_units.
      induction s as [|c s IH]; [reflexivity|].
      cbn [flat_map]. rewrite escapeUnit_plain by (apply Hplain; now left).
      cbn [app]. f_equal. apply IH. intros x Hx. apply Hplain. now right.
Qed.

Lemma escapeUnit_inj_step a b (X Y : jsstring) :
  escapeUnit a ++ X = escapeUnit b ++ Y -> a = b /\ X = Y.
Proof.
  unfold escapeUnit.
  destruct (N.eqb_spec a 38) as [->|?];
    [|destruct (N.eqb_spec a 60) as [->|?];
      [|destruct (N.eqb_spec a 62) as [->|?];
        [|destruct (N.eqb_spec a 34) as [->|?];
          [|destruct (N.eqb_spec a 39) as [->|?]]]]];
    (destruct (N.eqb_spec b 38) as [->|?];
      [|destruct (N.eqb_spec b 60) as [->|?];
        [|destruct (N.eqb_spec b 62) as [->|?];
          [|destruct (N.eqb_spec b 34) as [->|?];
            [|destruct (N.eqb_spec b 39) as [->|?]]]]]);
    cbn; intros H; inversion H; subst; try congruence; split; reflexivity.
Qed.

(** X12. Escaping loses nothing: two texts with the same escaped form
    are the same text. *)
Theorem escapeHtml_injective s t :
  escapeHtml s = escapeHtml t <-> s = t.
Proof.
  split; [|intros ->; reflexivity].
  rewrite !escapeHtml_units. revert t.
  induction s as [|a s IH]; intros [|b t] H.
  - reflexivity.
  - cbn [flat_map] in H. pose proof (escapeUnit_length b) as L.
    apply (f_equal (@List.length _)) in H. rewrite length_app in H.
    cbn [List.length] in H. lia.
  - cbn [flat_map] in H. pose proof (escapeUnit_length a) as L.
    apply (f_equal (@List.length _)) in H. rewrite length_app in H.
    cbn [List.length] in H. lia.
  - cbn [flat_map] in H. apply escapeUnit_inj_step in H as [-> H].
    f_equal. now apply IH.
Qed.

Lemma stripPrefix_app p rest : stripPrefix p (p ++ rest) = Some rest.
Proof.
  induction p as [|c p IH]; [reflexivity|].
  cbn [app stripPrefix]. now rewrite N.eqb_refl.
Qed.

Lemma stripPrefix_some p s rest : stripPrefix p s = Some rest -> s = p ++ rest.
Proof.
  revert s. induction p as [|c p IH]; intros s H.
  - cbn in H. now injection H as ->.
  - destruct s as [|d s]; [discriminate H|]. cbn [stripPrefix] in H.
    destruct (N.eqb_spec c d) as [->|_]; [|discriminate H].
    cbn [app]. f_equal. now apply IH.
Qed.

(** X13. The displayed website loses one leading [https://] or
    [http://], in lower case and once only, and is otherwise the website
    as it is. *)
Theorem stripScheme_cases website :
  (forall rest, website = u16 "https://" ++ rest -> stripScheme website = rest)
  /\ (forall rest, website = u16 "http://" ++ rest -> stripScheme website = rest)
  /\ ((forall rest, website <> u16 "https://" ++ rest) ->
      (forall rest, website <> u16 "http://" ++ rest) ->
      stripScheme website = website)
  /\ (exists scheme,
        website = scheme ++ stripScheme website
        /\ (scheme = [] \/ scheme = u16 "http://" \/ scheme = u16 "https://")).
Proof.
  split; [|split; [|split]].
  - intros rest ->. unfold stripScheme. now rewrite stripPrefix_app.
  - intros rest ->. unfold stripScheme.
    change (stripPrefix (u16 "https://") (u16 "http://" ++ rest)) with (@None jsstring).
    now rewrite stripPrefix_app.
  - intros Hs Hp. unfold stripScheme.
    destruct (stripPrefix (u16 "https://") website) as [r|] eqn:E1.
    { apply stripPrefix_some in E1. now apply Hs in E1. }
    destruct (stripPrefix (u16 "http://") website) as [r|] eqn:E2.
    { apply stripPrefix_some in E2. now apply Hp in E2. }
    reflexivity.
  - unfold stripScheme.
    destruct (stripPrefix (u16 "https://") website) as [r|] eqn:E1.
    { exists (u16 "https://"). split; [now apply stripPrefix_some|auto]. }
    destruct (stripPrefix (u16 "http://") website) as [r|] eqn:E2.
    { exists (u16 "http://"). split; [now apply stripPrefix_some|auto]. }
    exists []. split; [reflexivity|auto].
Qed.

Lemma countIf_escaped s : countIf isMarkup (escapeHtml s) = 0.
Proof.
  apply countIf_none. intros c Hc.
  apply escapeHtml_no_markup in Hc as (H1 & H2 & H3 & H4).
  unfold isMarkup. apply N.eqb_neq in H1, H2, H3, H4.
  now rewrite H1, H2, H3, H4.
Qed.

(** X14. The error page is a fixed text around the escaped message: the
    message brings no [<], [>] or quote into the page, whose count of
    these is the same for every message. *)
Theorem error_page_markup_fixed message :
  generateErrorPage message
  = err_before_message ++ escapeHtml message ++ err_after_message
  /\ countIf isMarkup (generateErrorPage message)
     = countIf isMarkup (generateErrorPage [])
  /\ countIf isMarkup (generateErrorPage []) = 62.
Proof.
  split; [reflexivity|]. split.
  - unfold generateErrorPage. rewrite !countIf_app, !countIf_escaped. reflexivity.
  - vm_compute. reflexivity.
Qed.

End PageMore.

(** ** The card page and the card URLs *)

Module CardMore.

Import Card QR Handlers JSFacts CardFacts VCardMore PageMore.

(** X15. For a profile with no field present, the page falls back on
    its built-in texts: BizBuz in the document title, an empty title and
    Planet Nine in the description, [?] in the avatar, Anonymous as the
    heading, Contact in the share title; none of the optional blocks is
    there. *)
Theorem page_of_empty_profile toUpperCase profile identifier qrDataUrl :
  nothingPresent profile ->
  pageParts toUpperCase profile identifier qrDataUrl
  = [ seg_doctype; u16 "BizBuz"; seg_after_title; []; seg_meta_at;
      u16 "Planet Nine"; seg_style_to_avatar; u16 "?"; seg_avatar_to_name;
      u16 "Anonymous"; seg_name_to_title; []; seg_title_to_company; [];
      seg_company_to_bio; []; seg_bio_to_email; []; seg_email_to_phone; [];
      seg_phone_to_website; []; seg_website_to_location; [];
      seg_location_to_qr; qrDataUrl; seg_qr_to_vcard_link; identifier;
      seg_vcard_link_to_share; u16 "Contact"; seg_tail ].
Proof.
  intros (Hn & Ht & Hc & He & Hp & Hw & Hl & Hb & _).
  unfold pageParts, orElse, getInitials.
  rewrite Hn, Ht, Hc, He, Hp, Hw, Hl, Hb. reflexivity.
Qed.

Lemma page_of_empty_profile_witness :
  nth 9 (pageParts toUpperCaseLatin1
           {| name := Some []; title := None; company := None; email := None;
              phone := None; website := None; location := None; bio := None;
              social := None |}
           (u16 "demo") (u16 "data:image/png;base64,")) []
  = u16 "Anonymous".
Proof.
  rewrite (page_of_empty_profile toUpperCaseLatin1
             {| name := Some []; title := None; company := None; email := None;
                phone := None; website := None; location := None; bio := None;
                social := None |}
             (u16 "demo") (u16 "data:image/png;base64,")).
  - reflexivity.
  - repeat split.
Defined.

Lemma isPresent_cases (f g : option jsstring) :
  isPresent f = isPresent g ->
  (present f = None /\ present g = None)
  \/ (exists s t, present f = Some s /\ present g = Some t).
Proof.
  unfold isPresent. destruct (present f) as [s|], (present g) as [t|];
    intros H; try discriminate H; [right; eauto|left; auto].
Qed.

(** X16. The bio, e-mail, phone, website and location cannot bring
    markup into the page: two profiles with the same name, title and
    company and the same of those five present give, for the same
    identifier and QR image, pages with the same count of [<], [>] and
    quotes, whatever the five hold. *)
Theorem page_body_fields_bring_no_markup toUpperCase p q identifier qrDataUrl :
  sameHeadSameShape p q ->
  countIf isMarkup (List.concat (pageParts toUpperCase p identifier qrDataUrl))
  = countIf isMarkup (List.concat (pageParts toUpperCase q identifier qrDataUrl)).
Proof.
  intros (Hn & Ht & Hc & Hb & He & Hp & Hw & Hl).
  unfold pageParts, orElse, getInitials. rewrite Hn, Ht, Hc.
  cbn [List.concat]. rewrite !countIf_app.
  repeat first
    [ apply (f_equal (Nat.add _))
    | apply f_equal2;
      [ match goal with
        | H : isPresent _ = isPresent _ |- _ =>
            solve [ destruct (isPresent_cases _ _ H)
                      as [[-> ->]|(? & ? & -> & ->)];
                    rewrite ?countIf_app, ?countIf_escaped; reflexivity ]
        end
      | ] ].
  reflexivity.
Qed.

Lemma page_body_fields_bring_no_markup_witness :
  countIf isMarkup
    (List.concat (pageParts toUpperCaseLatin1
       {| name := Some (u16 "Ada"); title := None; company := None;
          email := None; phone := None; website := None; location := None;
          bio := Some (u16 "<script>alert(1)</script>"); social := None |}
       (u16 "demo") (u16 "data:image/png;base64,")))
  = countIf isMarkup
      (List.concat (pageParts toUpperCaseLatin1
         {| name := Some (u16 "Ada"); title := None; company := None;
            email := None; phone := None; website := None; location := None;
            bio := Some (u16 "Hello"); social := None |}
         (u16 "demo") (u16 "data:image/png;base64,"))).
Proof.
  apply (page_body_fields_bring_no_markup toUpperCaseLatin1).
  repeat split.
Defined.

Lemma split_head_kept sep c rest :
  c <> sep -> exists w ws, split sep (c :: rest) = (c :: w) :: ws.
Proof.
  intros Hc. cbn [split]. destruct (N.eqb_spec c sep) as [->|_]; [contradiction|].
  destruct (split sep rest) as [|w ws]; eauto.
Qed.

(** X17. A name that is one word gives the upper-casing of its first
    code unit; a name that starts with two words with one space between
    them gives the upper-casing of the first code units of the two,
    whatever follows. *)
Theorem getInitials_of_words (toUpperCase : jsstring -> jsstring)
        (a b : code_unit) (word rest : jsstring) :
  a <> space -> b <> space -> ~ In space word ->
  getInitials toUpperCase (Some (a :: word)) = toUpperCase [a]
  /\ getInitials toUpperCase (Some (a :: word ++ space :: b :: rest))
     = toUpperCase [a; b].
Proof.
  intros Ha Hb Hword.
  assert (Hfirst : ~ In space (a :: word)).
  { intros [H|H]; [now apply Ha|now apply Hword]. }
  unfold getInitials. cbn [present nonempty app]. split.
  - rewrite (split_no_sep space (a :: word) Hfirst). reflexivity.
  - change (a :: word ++ space :: b :: rest)
      with ((a :: word) ++ space :: b :: rest).
    rewrite (split_at_first space (a :: word) (b :: rest) Hfirst).
    destruct (split_head_kept space b rest Hb) as (w & ws & ->).
    rewrite initials_concat. reflexivity.
Qed.

Lemma getInitials_of_words_witness :
  getInitials toUpperCaseLatin1 (Some (u16 "ada")) = u16 "A"
  /\ getInitials toUpperCaseLatin1 (Some (u16 "ada king lovelace")) = u16 "AK".
Proof.
  apply (getInitials_of_words toUpperCaseLatin1 97%N 107%N (u16 "da")
           (u16 "ing lovelace")).
  - discriminate.
  - discriminate.
  - intros H. vm_compute in H. repeat (destruct H as [H|H]; [discriminate H|]).
    exact H.
Defined.

(** X18. For one request, two identifiers give the same card URL only
    when they are the same identifier, on the QR endpoint, on the card
    page and in the request to the profile service alike. *)
Theorem card_urls_tell_identifiers_apart req base id1 id2 :
  (endpointCardUrl req id1 = endpointCardUrl req id2 <-> id1 = id2)
  /\ (pageCardUrl id1 = pageCardUrl id2 <-> id1 = id2)
  /\ (Resolver.profileUrl base id1 = Resolver.profileUrl base id2 <-> id1 = id2).
Proof.
  unfold endpointCardUrl, pageCardUrl, Resolver.profileUrl.
  repeat split; try (intros ->; reflexivity); intros H;
    repeat apply app_inv_head in H; exact H.
Qed.

(** X19. A request with no Host header still gets its QR code: the
    endpoint encodes <scheme>://undefined/card/<identifier> and answers
    200 with an image/png body when the QR library succeeds, 500 with the
    error message in a JSON body when it throws. *)
Theorem qr_without_host toBuffer messageOf req identifier :
  host req = None ->
  endpointCardUrl req identifier
  = protocol req ++ u16 "://undefined/card/" ++ identifier
  /\ (forall buffer,
        toBuffer (protocol req ++ u16 "://undefined/card/" ++ identifier)
          endpointQROptions = Ok buffer ->
        qrHandler toBuffer messageOf req identifier
        = {| status := 200;
             headers := [(u16 "Content-Type", u16 "image/png")];
             body := SendBuffer buffer |})
  /\ (forall error,
        toBuffer (protocol req ++ u16 "://undefined/card/" ++ identifier)
          endpointQROptions = Throw error ->
        qrHandler toBuffer messageOf req identifier
        = {| status := 500; headers := [];
             body := SendJson (VObj [(u16 "error", VStr (messageOf error))]) |}).
Proof.
  intros Hhost.
  assert (E : endpointCardUrl req identifier
              = protocol req ++ u16 "://undefined/card/" ++ identifier).
  { unfold endpointCardUrl. rewrite Hhost. cbn [interpolate].
    change (u16 "://undefined/card/")
      with (u16 "://" ++ u16 "undefined" ++ u16 "/card/").
    now rewrite <- !app_assoc. }
  split; [exact E|].
  unfold qrHandler, qrBuffer. rewrite E.
  split; intros x Hx; now rewrite Hx.
Qed.

Lemma qr_without_host_witness :
  endpointCardUrl {| protocol := u16 "http"; host := None |} (u16 "demo")
  = u16 "http" ++ u16 "://undefined/card/" ++ u16 "demo".
Proof.
  exact (proj1 (qr_without_host (fun _ _ => Ok []) (fun _ => [])
                  {| protocol := u16 "http"; host := None |} (u16 "demo")
                  eq_refl)).
Defined.

End CardMore.
